(** * Polls: the request handlers of [mysite/polls/views.py]

    A shallow embedding of the Django polls application.  The database
    holds two tables, [polls_question] and [polls_choice], keyed by their
    integer primary keys; a view is a computation over the database that
    either returns an HTTP response or raises a Python exception.  The
    clock ([timezone.now()]) is passed to the views that read it. *)

From stdpp Require Import gmap strings list fin_maps sorting.
From Stdlib Require Import ZArith Lia Ascii.

Local Open Scope string_scope.
Local Open Scope Z_scope.

(** ** Python strings *)

(** Characters are code points below 256.  [str.isspace] holds there for
    U+0009..U+000D, U+001C..U+0020, U+0085 and U+00A0. *)
Definition isspace (c : ascii) : bool :=
  let n := Z.of_N (N_of_ascii c) in
  ((9 <=? n) && (n <=? 13)) || ((28 <=? n) && (n <=? 32))
  || (n =? 133) || (n =? 160).

Fixpoint lstrip (s : string) : string :=
  match s with
  | EmptyString => EmptyString
  | String c s' => if isspace c then lstrip s' else s
  end.

Fixpoint rstrip (s : string) : string :=
  match s with
  | EmptyString => EmptyString
  | String c s' =>
      match rstrip s' with
      | EmptyString => if isspace c then EmptyString else String c EmptyString
      | r => String c r
      end
  end.

(** [s.strip()] *)
Definition strip (s : string) : string := rstrip (lstrip s).

(** Truth value of a [str]: false exactly for the empty string. *)
Definition str_bool (s : string) : bool :=
  match s with
  | EmptyString => false
  | String _ _ => true
  end.

(** Every character of [s] is whitespace (so is the empty string). *)
Fixpoint blank (s : string) : bool :=
  match s with
  | EmptyString => true
  | String c s' => isspace c && blank s'
  end.

Definition digit_val (c : ascii) : option Z :=
  let n := Z.of_N (N_of_ascii c) in
  if (48 <=? n) && (n <=? 57) then Some (n - 48) else None.

(** Decimal digits, single underscores allowed between two digits. *)
Fixpoint parse_digits (acc : Z) (after_digit : bool) (s : string) : option Z :=
  match s with
  | EmptyString => if after_digit then Some acc else None
  | String c s' =>
      match digit_val c with
      | Some d => parse_digits (10 * acc + d) true s'
      | None =>
          if Ascii.eqb c "_" && after_digit then parse_digits acc false s'
          else None
      end
  end.

(** The whitespace [int()] skips around a numeral: U+0009..U+000D and
    U+0020, and U+0085 and U+00A0, which the conversion turns into
    spaces.  Unlike [str.strip] it does not skip U+001C..U+001F. *)
Definition int_isspace (c : ascii) : bool :=
  let n := Z.of_N (N_of_ascii c) in
  ((9 <=? n) && (n <=? 13)) || (n =? 32) || (n =? 133) || (n =? 160).

Fixpoint int_lskip (s : string) : string :=
  match s with
  | EmptyString => EmptyString
  | String c s' => if int_isspace c then int_lskip s' else s
  end.

Fixpoint int_rskip (s : string) : string :=
  match s with
  | EmptyString => EmptyString
  | String c s' =>
      match int_rskip s' with
      | EmptyString =>
          if int_isspace c then EmptyString else String c EmptyString
      | r => String c r
      end
  end.

(** The number of digits of a numeral, underscores not counted. *)
Fixpoint digit_count (s : string) : Z :=
  match s with
  | EmptyString => 0
  | String c s' =>
      (match digit_val c with Some _ => 1 | None => 0 end) + digit_count s'
  end.

(** [sys.get_int_max_str_digits()]: the interpreter's default limit on
    the digits of a decimal numeral that [int()] converts. *)
Definition int_max_str_digits : Z := 4300.

(** The numeral after the sign: digits and underscores, no more digits
    than the limit. *)
Definition int_numeral (r : string) : option Z :=
  match parse_digits 0 false r with
  | Some n => if decide (digit_count r ≤ int_max_str_digits) then Some n
              else None
  | None => None
  end.

(** [int(s)] on a [str]: surrounding whitespace, an optional sign, then
    the numeral; [None] stands for [ValueError]. *)
Definition int (s : string) : option Z :=
  match int_rskip (int_lskip s) with
  | String "+" r => int_numeral r
  | String "-" r => Z.opp <$> int_numeral r
  | r => int_numeral r
  end.

(** ** Models *)

(** A row of [polls_question]; the primary key is the key of the table. *)
Record Question := mkQuestion {
  question_text : string;
  pub_date : Z
}.

(** A row of [polls_choice]; [question_id] is the foreign key to the
    owning Question. *)
Record Choice := mkChoice {
  question_id : Z;
  choice_text : string;
  votes : Z
}.

(** A model instance in the memory of a request: the row with its [pk]. *)
Record Instance (A : Type) := mkInstance {
  pk : Z;
  fields : A
}.
Arguments mkInstance {A} pk fields.
Arguments pk {A} i.
Arguments fields {A} i.

Record Database := mkDatabase {
  Question_objects : gmap Z Question;
  Choice_objects : gmap Z Choice
}.

Definition empty_database : Database := mkDatabase ∅ ∅.

(** ** Requests, responses and exceptions *)

(** [form_data] holds the decoded form fields of the request body. *)
Record HttpRequest := mkRequest {
  method : string;
  form_data : gmap string string
}.

(** [request.POST]: Django fills it only for a request whose method is
    POST; it is the empty QueryDict otherwise. *)
Definition POST (request : HttpRequest) : gmap string string :=
  if decide (method request = "POST") then form_data request else ∅.

(** [reverse('polls:...')]: the named routes of the application. *)
Inductive Url :=
  | polls_index
  | polls_detail (question_id : Z)
  | polls_results (question_id : Z).

Inductive ContextValue :=
  | CtxStr (s : string)
  | CtxQuestion (q : Instance Question)
  | CtxQuestionList (l : list (Instance Question)).

Inductive HttpResponse :=
  | render (template_name : string) (context : gmap string ContextValue)
  | HttpResponseRedirect (url : Url).

Definition status_code (r : HttpResponse) : Z :=
  match r with
  | render _ _ => 200
  | HttpResponseRedirect _ => 302
  end.

Inductive Exception :=
  | Http404
  | KeyError (key : string)
  | DoesNotExist
  | ValueError.

(** ** Views as computations over the database *)

Inductive Outcome (A : Type) :=
  | Return (a : A)
  | Raise (e : Exception).
Arguments Return {A} a.
Arguments Raise {A} e.

Definition View (A : Type) : Type := Database → Database * Outcome A.

#[global] Instance View_ret : MRet View := λ A a db, (db, Return a).

#[global] Instance View_bind : MBind View := λ A B f c db,
  match c db with
  | (db', Return a) => f a db'
  | (db', Raise e) => (db', Raise e)
  end.

Definition raise {A} (e : Exception) : View A := λ db, (db, Raise e).

Definition read_db : View Database := λ db, (db, Return db).

Definition write_db (db' : Database) : View unit := λ _, (db', Return tt).

(** [try: body  except <catches>: handler  else: orelse] *)
Definition try_except_else {A B} (body : View A) (catches : Exception → bool)
    (handler : View B) (orelse : A → View B) : View B := λ db,
  match body db with
  | (db', Return a) => orelse a db'
  | (db', Raise e) => if catches e then handler db' else (db', Raise e)
  end.

(** [d[key]] on a QueryDict. *)
Definition getitem (d : gmap string string) (key : string) : View string :=
  match d !! key with
  | Some v => mret v
  | None => raise (KeyError key)
  end.

(** ** The object-relational layer *)

(** The ORM prepares the value of a lookup [pk=v] with [int(v)] before
    it builds the query: a value that is no integer makes the lookup
    raise [ValueError], not [DoesNotExist].  Primary keys are unbounded
    integers here; the width of an integer column is the database's. *)
Definition to_pk (v : string) : View Z :=
  match int v with
  | Some n => mret n
  | None => raise ValueError
  end.

(** The greatest primary key of a table, 0 for an empty one. *)
Definition max_pk {A} (t : gmap Z A) : Z :=
  foldr Z.max 0 ((map_to_list t).*1).

(** The key the database gives to the next inserted row: one more than
    the greatest key, a key that no row of the table has. *)
Definition next_pk {A} (t : gmap Z A) : Z := max_pk t + 1.

(** [get_object_or_404(Question, pk=question_id)] *)
Definition get_object_or_404 (question_id : Z) : View (Instance Question) :=
  db ← read_db;
  match Question_objects db !! question_id with
  | Some q => mret (mkInstance question_id q)
  | None => raise Http404
  end.

(** [question.choice_set]: the Choices whose foreign key is the question. *)
Definition choice_set (db : Database) (question : Z) : gmap Z Choice :=
  filter (λ kc, question_id kc.2 = question) (Choice_objects db).

(** [question.choice_set.get(pk=v)] *)
Definition choice_set_get (question : Instance Question) (v : string)
    : View (Instance Choice) :=
  n ← to_pk v;
  db ← read_db;
  match choice_set db (pk question) !! n with
  | Some c => mret (mkInstance n c)
  | None => raise DoesNotExist
  end.

(** [obj.save()] on a Choice read from the database: the row with the
    instance's [pk] is overwritten with the instance's fields. *)
Definition Choice_save (c : Instance Choice) : View unit :=
  db ← read_db;
  write_db (mkDatabase (Question_objects db)
                       (<[pk c := fields c]> (Choice_objects db))).

(** [Question(...).save()] on a new instance: a row is inserted under a
    new primary key. *)
Definition Question_save_new (q : Question) : View (Instance Question) :=
  db ← read_db;
  let k := next_pk (Question_objects db) in
  _ ← write_db (mkDatabase (<[k := q]> (Question_objects db))
                           (Choice_objects db));
  mret (mkInstance k q).

(** [question.choice_set.create(choice_text=t, votes=v)] *)
Definition choice_set_create (question : Instance Question)
    (t : string) (v : Z) : View (Instance Choice) :=
  db ← read_db;
  let k := next_pk (Choice_objects db) in
  let c := mkChoice (pk question) t v in
  _ ← write_db (mkDatabase (Question_objects db)
                           (<[k := c]> (Choice_objects db)));
  mret (mkInstance k c).

(** Modelled from the spec: the property [Question.answer_count] of
    [models.py], which is not among the sources; the spec speaks of the
    number of Choices the Question already has. *)
Definition answer_count (db : Database) (question : Instance Question) : Z :=
  Z.of_nat (size (choice_set db (pk question))).

(** [Question.objects.filter(pub_date__lte=now)] *)
Definition filter_pub_date_lte (now : Z) (t : gmap Z Question)
    : gmap Z Question :=
  filter (λ kq, pub_date kq.2 ≤ now) t.

(** [Question.objects.filter(question_text=t)] *)
Definition filter_question_text (t : string) (tbl : gmap Z Question)
    : gmap Z Question :=
  filter (λ kq, question_text kq.2 = t) tbl.

(** The rows of a query set as model instances. *)
Definition instances {A} (t : gmap Z A) : list (Instance A) :=
  (λ kv, mkInstance kv.1 kv.2) <$> map_to_list t.

(** [a] comes no later than [b] under [order_by('-pub_date')]. *)
Definition newer (a b : Instance Question) : Prop :=
  pub_date (fields b) ≤ pub_date (fields a).

#[global] Instance newer_dec a b : Decision (newer a b) :=
  Z_le_dec (pub_date (fields b)) (pub_date (fields a)).

(** [qs.order_by('-pub_date')] *)
Definition order_by_pub_date_desc (qs : gmap Z Question)
    : list (Instance Question) :=
  merge_sort newer (instances qs).

(** ** The views of [views.py] *)

(** [IndexView.get_queryset] *)
Definition IndexView_get_queryset (now : Z) : View (list (Instance Question)) :=
  db ← read_db;
  mret (take 5 (order_by_pub_date_desc
                  (filter_pub_date_lte now (Question_objects db)))).

(** [generic.ListView.get]: the query set under [context_object_name]. *)
Definition IndexView (now : Z) : View HttpResponse :=
  latest_question_list ← IndexView_get_queryset now;
  mret (render "polls/index.html"
          {[ "latest_question_list" := CtxQuestionList latest_question_list ]}).

(** [DetailView.get_queryset] *)
Definition DetailView_get_queryset (now : Z) : View (gmap Z Question) :=
  db ← read_db;
  mret (filter_pub_date_lte now (Question_objects db)).

(** [generic.DetailView.get_object]: the row of the query set with the
    requested [pk], [Http404] when the query set has none. *)
Definition get_object (queryset : gmap Z Question) (k : Z)
    : View (Instance Question) :=
  match queryset !! k with
  | Some q => mret (mkInstance k q)
  | None => raise Http404
  end.

Definition DetailView_get_object (now : Z) (k : Z) : View (Instance Question) :=
  queryset ← DetailView_get_queryset now;
  get_object queryset k.

Definition DetailView (now : Z) (k : Z) : View HttpResponse :=
  question ← DetailView_get_object now k;
  mret (render "polls/detail.html" {[ "question" := CtxQuestion question ]}).

(** [ResultsView]: [model = Question], so the query set is the table. *)
Definition ResultsView (k : Z) : View HttpResponse :=
  db ← read_db;
  question ← get_object (Question_objects db) k;
  mret (render "polls/results.html" {[ "question" := CtxQuestion question ]}).

(** Line 44 of [vote]: the selected Choice is read into the request's
    memory. *)
Definition vote_select (question : Instance Question) (request : HttpRequest)
    : View (Instance Choice) :=
  v ← getitem (POST request) "choice";
  choice_set_get question v.

(** [selected_choice.votes += 1] on the instance in memory. *)
Definition votes_incr (c : Instance Choice) : Instance Choice :=
  mkInstance (pk c)
    (mkChoice (question_id (fields c)) (choice_text (fields c))
              (votes (fields c) + 1)).

(** Lines 52 to 55 of [vote]: increment in memory, save, redirect. *)
Definition vote_commit (question : Instance Question)
    (selected_choice : Instance Choice) : View HttpResponse :=
  let selected_choice := votes_incr selected_choice in
  _ ← Choice_save selected_choice;
  mret (HttpResponseRedirect (polls_results (pk question))).

Definition vote_catches (e : Exception) : bool :=
  match e with
  | KeyError _ | DoesNotExist => true
  | _ => false
  end.

Definition vote (request : HttpRequest) (question_id : Z) : View HttpResponse :=
  question ← get_object_or_404 question_id;
  try_except_else (vote_select question request) vote_catches
    (mret (render "polls/detail.html"
             {[ "question" := CtxQuestion question;
                "error_message" := CtxStr "You didn't select a choice." ]}))
    (vote_commit question).

Definition create (now : Z) (request : HttpRequest) : View HttpResponse :=
  if decide (method request = "POST") then
    new_question ← getitem (POST request) "new_question";
    if negb (str_bool (strip new_question)) then
      mret (render "polls/create.html"
              {[ "message" := CtxStr "You didn't enter a question." ]})
    else
      new_question ← getitem (POST request) "new_question";
      _ ← Question_save_new (mkQuestion new_question now);
      mret (HttpResponseRedirect polls_index)
  else
    mret (render "polls/create.html" ∅).

Definition create_answer (request : HttpRequest) (question_id : Z)
    : View HttpResponse :=
  question ← get_object_or_404 question_id;
  db ← read_db;
  if decide (answer_count db question < 3) then
    if decide (method request = "POST") then
      new_answer ← getitem (POST request) "new_answer";
      if negb (str_bool (strip new_answer)) then
        mret (render "polls/create_answer.html"
                {[ "message" := CtxStr "You didn't enter an answer.";
                   "question" := CtxQuestion question ]})
      else
        new_answer ← getitem (POST request) "new_answer";
        _ ← choice_set_create question new_answer 0;
        mret (HttpResponseRedirect (polls_detail (pk question)))
    else
      mret (render "polls/create_answer.html"
              {[ "question" := CtxQuestion question ]})
  else
    mret (render "polls/detail.html"
            {[ "message_too_much" := CtxStr "You can't add moore than 3 answers.";
               "question" := CtxQuestion question ]}).

(** ** Sequences of requests *)

(** A request to one of the six views of [views.py], with the clock
    reading of the request where the view reads the clock. *)
Inductive Route :=
  | route_index (now : Z)
  | route_detail (now : Z) (question_id : Z)
  | route_results (question_id : Z)
  | route_vote (request : HttpRequest) (question_id : Z)
  | route_create (now : Z) (request : HttpRequest)
  | route_create_answer (request : HttpRequest) (question_id : Z).

Definition dispatch (r : Route) : View HttpResponse :=
  match r with
  | route_index now => IndexView now
  | route_detail now k => DetailView now k
  | route_results k => ResultsView k
  | route_vote request k => vote request k
  | route_create now request => create now request
  | route_create_answer request k => create_answer request k
  end.

(** The databases the handlers can produce, one request after another,
    from the empty database. *)
Inductive reachable : Database → Prop :=
  | reachable_empty : reachable empty_database
  | reachable_step db r : reachable db → reachable (dispatch r db).1.

(** Two [vote] requests for the same question whose database accesses
    interleave: both have read their Choice (line 44) before either
    saves (line 53). *)
Definition vote_interleaved (request1 request2 : HttpRequest)
    (question_id : Z) : View (HttpResponse * HttpResponse) :=
  question1 ← get_object_or_404 question_id;
  selected1 ← vote_select question1 request1;
  question2 ← get_object_or_404 question_id;
  selected2 ← vote_select question2 request2;
  response1 ← vote_commit question1 selected1;
  response2 ← vote_commit question2 selected2;
  mret (response1, response2).

(** The votes a database records for a Choice, 0 when there is none. *)
Definition votes_of (db : Database) (choice : Z) : Z :=
  match Choice_objects db !! choice with
  | Some c => votes c
  | None => 0
  end.

(** ** Data of [tests.py] *)

(** A POST request with one form field. *)
Definition post (field value : string) : HttpRequest :=
  mkRequest "POST" {[ field := value ]}.

(** [TestVote.setUp]: the question 'How are you?' with the choices 'Fine'
    and 'Good', published at time 100. *)
Definition test_vote_db : Database :=
  mkDatabase {[ 1 := mkQuestion "How are you?" 100 ]}
             {[ 1 := mkChoice 1 "Fine" 0; 2 := mkChoice 1 "Good" 0 ]}.

(** [test_more_than_three_answers]: a question created at time 100 and
    three answers posted to it. *)
Definition three_answers_db : Database :=
  (dispatch (route_create_answer (post "new_answer" "Third answer") 1)
    (dispatch (route_create_answer (post "new_answer" "Second answer") 1)
      (dispatch (route_create_answer (post "new_answer" "First answer") 1)
        (dispatch (route_create 100 (post "new_question" "How are you?"))
           empty_database).1).1).1).1.

(** The invariant of the choice table: no question id owns more than 3
    rows. *)
Definition at_most_3 (db : Database) : Prop :=
  ∀ question : Instance Question, answer_count db question ≤ 3.

(** [timedelta(days=d)], with timestamps counted in seconds. *)
Definition timedelta_days (days : Z) : Z := 86400 * days.

(** [create_question] of [tests.py]: a Question published [days] days
    from now (before now for a negative offset), made with
    [Question.objects.create]. *)
Definition create_question (question_text : string) (days : Z) (now : Z)
    : View (Instance Question) :=
  let time := now + timedelta_days days in
  Question_save_new (mkQuestion question_text time).

(** ** Runs of requests and what they keep *)

(** The requests [rs] handled one after the other: the database at the
    end and the outcome of each request. *)
Fixpoint serve (rs : list Route) (db : Database)
    : Database * list (Outcome HttpResponse) :=
  match rs with
  | [] => (db, [])
  | r :: rs' =>
      let db1 := (dispatch r db).1 in
      ((serve rs' db1).1, (dispatch r db).2 :: (serve rs' db1).2)
  end.

(** The outcome is the redirect to a results view, the answer of [vote]
    after it has saved. *)
Definition is_results_redirect (o : Outcome HttpResponse) : bool :=
  match o with
  | Return (HttpResponseRedirect (polls_results _)) => true
  | _ => false
  end.

(** The outcome is a redirect. *)
Definition is_redirect (o : Outcome HttpResponse) : bool :=
  match o with
  | Return (HttpResponseRedirect _) => true
  | _ => false
  end.

(** The request of a route that carries one. *)
Definition route_request (r : Route) : option HttpRequest :=
  match r with
  | route_vote request _ | route_create _ request
  | route_create_answer request _ => Some request
  | _ => None
  end.

(** All the votes the database records. *)
Definition total_votes (db : Database) : Z :=
  map_fold (λ _ c acc, votes c + acc) 0 (Choice_objects db).

(** The number of outcomes that are the redirect of a vote that was
    counted. *)
Fixpoint counted_votes (os : list (Outcome HttpResponse)) : Z :=
  match os with
  | [] => 0
  | o :: os' => (if is_results_redirect o then 1 else 0) + counted_votes os'
  end.

(** Every Choice belongs to a Question of the database. *)
Definition fk_valid (db : Database) : Prop :=
  ∀ n c, Choice_objects db !! n = Some c →
         is_Some (Question_objects db !! question_id c).

(** No Choice has a negative number of votes. *)
Definition votes_nonneg (db : Database) : Prop :=
  ∀ n c, Choice_objects db !! n = Some c → 0 ≤ votes c.

(** [db'] has every Question of [db] as it was, and every Choice of [db]
    with its text and owner and no fewer votes. *)
Definition keeps_rows (db db' : Database) : Prop :=
  (∀ k q, Question_objects db !! k = Some q →
          Question_objects db' !! k = Some q)
  ∧ (∀ n c, Choice_objects db !! n = Some c →
       ∃ c', Choice_objects db' !! n = Some c'
           ∧ question_id c' = question_id c
           ∧ choice_text c' = choice_text c
           ∧ votes c ≤ votes c').

(** The number of Questions published by [now]. *)
Definition published_count (now : Z) (db : Database) : nat :=
  size (filter_pub_date_lte now (Question_objects db)).

(** * Properties *)

(** ** Strings *)

Lemma blank_lstrip s : blank (lstrip s) = blank s.
Proof.
  induction s as [|c s IH]; simpl; [done|].
  destruct (isspace c) eqn:Hc; simpl; [done|]. by rewrite Hc.
Qed.

Lemma rstrip_empty s : rstrip s = EmptyString ↔ blank s = true.
Proof.
  induction s as [|c s IH]; simpl; [done|].
  destruct (rstrip s) eqn:Hr.
  - destruct (isspace c); simpl; [tauto|]. split; [done|]. by intros [=].
  - split; [done|]. rewrite andb_true_iff. intros [_ Hb].
    apply IH in Hb. discriminate.
Qed.

Lemma strip_empty s : strip s = EmptyString ↔ blank s = true.
Proof. unfold strip. by rewrite rstrip_empty, blank_lstrip. Qed.

(** [not s.strip()] is true exactly when [s] holds only whitespace. *)
Lemma not_strip_blank s : negb (str_bool (strip s)) = blank s.
Proof.
  destruct (blank s) eqn:Hb.
  - apply strip_empty in Hb. by rewrite Hb.
  - destruct (strip s) eqn:Hs; [|done].
    apply strip_empty in Hs. congruence.
Qed.

(** [int()] does not take the separators U+001C..U+001F for whitespace,
    which [str.strip] removes. *)
Lemma int_rejects_separators :
  strip (String (ascii_of_nat 28) "1") = "1"
  ∧ int (String (ascii_of_nat 28) "1") = None
  ∧ int (String (ascii_of_nat 31) "5") = None
  ∧ int (String (ascii_of_nat 160) " +1_0 ") = Some 10.
Proof. repeat split; reflexivity. Qed.

(** ** Primary keys *)

Lemma max_pk_ge {A} (t : gmap Z A) k x : t !! k = Some x → k ≤ max_pk t.
Proof.
  intros Hk. apply elem_of_map_to_list in Hk.
  unfold max_pk. induction (map_to_list t) as [|[k' x'] l IH]; simpl.
  - by apply elem_of_nil in Hk.
  - apply elem_of_cons in Hk as [[= <- <-]|Hk]; [apply Z.le_max_l|].
    etrans; [by apply IH|apply Z.le_max_r].
Qed.

Lemma next_pk_fresh {A} (t : gmap Z A) : t !! next_pk t = None.
Proof.
  destruct (t !! next_pk t) as [x|] eqn:Hk; [|done].
  apply max_pk_ge in Hk. unfold next_pk in Hk. lia.
Qed.

(** ** Query sets *)

Lemma elem_of_instances {A} (t : gmap Z A) (i : Instance A) :
  i ∈ instances t ↔ t !! pk i = Some (fields i).
Proof.
  unfold instances. rewrite list_elem_of_fmap. split.
  - intros [[k x] [-> Hkx]]. simpl. by apply elem_of_map_to_list.
  - intros Hi. exists (pk i, fields i). split; [by destruct i|].
    by apply elem_of_map_to_list.
Qed.

Lemma filter_pub_date_lte_lookup now t k q :
  filter_pub_date_lte now t !! k = Some q ↔ t !! k = Some q ∧ pub_date q ≤ now.
Proof. unfold filter_pub_date_lte. by rewrite map_lookup_filter_Some. Qed.

#[global] Instance newer_trans : Transitive newer.
Proof. unfold newer. intros a b c ? ?. lia. Qed.

#[global] Instance newer_total : Total newer.
Proof. intros a b. unfold newer. lia. Qed.

Lemma elem_of_order_by qs i :
  i ∈ order_by_pub_date_desc qs ↔ qs !! pk i = Some (fields i).
Proof.
  unfold order_by_pub_date_desc.
  by rewrite merge_sort_Permutation, elem_of_instances.
Qed.

Lemma order_by_sorted qs : StronglySorted newer (order_by_pub_date_desc qs).
Proof. apply StronglySorted_merge_sort; apply _. Qed.

Lemma StronglySorted_take {A} (R : relation A) n l :
  StronglySorted R l → StronglySorted R (take n l).
Proof.
  intros Hl. rewrite <-(take_drop n l) in Hl.
  by apply StronglySorted_app_1_l in Hl.
Qed.

Lemma StronglySorted_lookup {A} (R : relation A) l i j a b :
  StronglySorted R l → (i < j)%nat →
  l !! i = Some a → l !! j = Some b → R a b.
Proof.
  intros Hl. revert i j. induction Hl as [|x l Hl IH Hx]; intros i j Hij Ha Hb.
  - by rewrite lookup_nil in Ha.
  - destruct j as [|j]; [lia|]. simpl in Hb. destruct i as [|i]; simpl in Ha.
    + injection Ha as <-. rewrite Forall_forall in Hx.
      apply Hx. by eapply list_elem_of_lookup_2.
    + eapply (IH i j); [lia|done..].
Qed.

(** ** The listing *)

(** C5: for every database and every clock reading, the listing leaves
    the database as it is and returns at most 5 Questions, each a row of
    the table with publish timestamp no later than now, ordered by
    publish timestamp descending. *)
Theorem index_listing now db :
  ∃ l, IndexView_get_queryset now db = (db, Return l)
     ∧ IndexView now db =
         (db, Return (render "polls/index.html"
                        {[ "latest_question_list" := CtxQuestionList l ]}))
     ∧ (length l ≤ 5)%nat
     ∧ Forall (λ q, Question_objects db !! pk q = Some (fields q)
                    ∧ pub_date (fields q) ≤ now) l
     ∧ StronglySorted newer l
     ∧ ∀ i j a b, (i < j)%nat → l !! i = Some a → l !! j = Some b →
                  pub_date (fields b) ≤ pub_date (fields a).
Proof.
  eexists. split; [reflexivity|]. split; [reflexivity|].
  set (qs := filter_pub_date_lte now (Question_objects db)).
  assert (Hs : StronglySorted newer (take 5 (order_by_pub_date_desc qs)))
    by apply StronglySorted_take, order_by_sorted.
  split; [rewrite length_take; lia|]. split; [|split; [done|]].
  - apply Forall_take, Forall_forall. intros i Hi.
    apply elem_of_order_by in Hi. by apply filter_pub_date_lte_lookup in Hi.
  - intros i j a b. by apply (StronglySorted_lookup newer).
Qed.

(** ** Running a view *)

Ltac run_view :=
  unfold mbind, View_bind, mret, View_ret, read_db, write_db, raise; simpl.

(** [request.POST] has a field only for a POST request. *)
Lemma POST_Some request key v :
  POST request !! key = Some v →
  method request = "POST" ∧ form_data request !! key = Some v.
Proof. unfold POST. case_decide; [done|]. by rewrite lookup_empty. Qed.

(** ** Running the read-only views *)

Lemma IndexView_get_queryset_run now db :
  IndexView_get_queryset now db =
    (db, Return (take 5 (order_by_pub_date_desc
                           (filter_pub_date_lte now (Question_objects db))))).
Proof. reflexivity. Qed.

Lemma DetailView_run now db k :
  DetailView now k db =
    (db, match Question_objects db !! k with
         | Some q => if decide (pub_date q ≤ now)
                     then Return (render "polls/detail.html"
                            {[ "question" := CtxQuestion (mkInstance k q) ]})
                     else Raise Http404
         | None => Raise Http404
         end).
Proof.
  unfold DetailView, DetailView_get_object, DetailView_get_queryset, get_object.
  run_view.
  destruct (filter_pub_date_lte now (Question_objects db) !! k) as [q|] eqn:Hf.
  - apply filter_pub_date_lte_lookup in Hf as [-> Hle].
    by rewrite decide_True.
  - destruct (Question_objects db !! k) as [q|] eqn:Hq; [|done].
    case_decide as Hle; [|done].
    assert (filter_pub_date_lte now (Question_objects db) !! k = Some q)
      by by apply filter_pub_date_lte_lookup.
    congruence.
Qed.

Lemma DetailView_unpublished now db k q :
  Question_objects db !! k = Some q → now < pub_date q →
  DetailView now k db = (db, Raise Http404).
Proof.
  intros Hq Hnow. rewrite DetailView_run, Hq. by rewrite decide_False by lia.
Qed.

Lemma ResultsView_run k db :
  ResultsView k db =
    (db, match Question_objects db !! k with
         | Some q => Return (render "polls/results.html"
                       {[ "question" := CtxQuestion (mkInstance k q) ]})
         | None => Raise Http404
         end).
Proof.
  unfold ResultsView, get_object. run_view.
  by destruct (Question_objects db !! k).
Qed.

(** ** The detail view *)

(** C6: for every question id the detail view returns the Question
    exactly when the table has it with publish timestamp no later than
    now, raises [Http404] for an unknown id and for a later publish
    timestamp, and leaves the database as it is in every case. *)
Theorem detail_published_only now db k :
  DetailView_get_object now k db =
    (db, match Question_objects db !! k with
         | Some q => if decide (pub_date q ≤ now)
                     then Return (mkInstance k q) else Raise Http404
         | None => Raise Http404
         end)
  ∧ DetailView now k db =
    (db, match Question_objects db !! k with
         | Some q => if decide (pub_date q ≤ now)
                     then Return (render "polls/detail.html"
                            {[ "question" := CtxQuestion (mkInstance k q) ]})
                     else Raise Http404
         | None => Raise Http404
         end).
Proof.
  assert (H1 : DetailView_get_object now k db =
    (db, match Question_objects db !! k with
         | Some q => if decide (pub_date q ≤ now)
                     then Return (mkInstance k q) else Raise Http404
         | None => Raise Http404
         end)).
  { unfold DetailView_get_object, DetailView_get_queryset, get_object.
    run_view. destruct (filter_pub_date_lte now (Question_objects db) !! k)
      as [q|] eqn:Hf.
    - apply filter_pub_date_lte_lookup in Hf as [-> Hle].
      by rewrite decide_True.
    - destruct (Question_objects db !! k) as [q|] eqn:Hq; [|done].
      case_decide as Hle; [|done].
      assert (filter_pub_date_lte now (Question_objects db) !! k = Some q)
        by by apply filter_pub_date_lte_lookup.
      congruence. }
  split; [done|]. unfold DetailView, mbind, View_bind.
  rewrite H1. destruct (Question_objects db !! k) as [q|]; [|done].
  by case_decide.
Qed.

(** ** Voting *)

Lemma choice_set_lookup db question n c :
  choice_set db question !! n = Some c ↔
  Choice_objects db !! n = Some c ∧ question_id c = question.
Proof. unfold choice_set. by rewrite map_lookup_filter_Some. Qed.

Lemma choice_set_lookup_None db question n :
  choice_set db question !! n = None ↔
  ∀ c, Choice_objects db !! n = Some c → question_id c ≠ question.
Proof.
  unfold choice_set. rewrite map_lookup_filter_None. simpl. split.
  - intros [Hn|Hn] c Hc; [congruence|]. by apply Hn.
  - intros Hn. right. intros c Hc. by apply Hn.
Qed.

Lemma get_object_or_404_found db k q :
  Question_objects db !! k = Some q →
  get_object_or_404 k db = (db, Return (mkInstance k q)).
Proof. intros Hq. unfold get_object_or_404. run_view. by rewrite Hq. Qed.

Lemma get_object_or_404_missing db k :
  Question_objects db !! k = None →
  get_object_or_404 k db = (db, Raise Http404).
Proof. intros Hq. unfold get_object_or_404. run_view. by rewrite Hq. Qed.

(** The selection of line 44 finds the Choice. *)
Lemma vote_select_found db question request v n c :
  POST request !! "choice" = Some v → int v = Some n →
  Choice_objects db !! n = Some c → question_id c = pk question →
  vote_select question request db = (db, Return (mkInstance n c)).
Proof.
  intros Hv Hn Hc Hq. unfold vote_select, getitem, choice_set_get, to_pk.
  rewrite Hv. run_view. rewrite Hn. simpl.
  assert (choice_set db (pk question) !! n = Some c) as ->
    by by apply choice_set_lookup.
  done.
Qed.

(** A vote for a Choice of the question, whatever its publish timestamp. *)
Lemma vote_valid db request k q v n c :
  Question_objects db !! k = Some q →
  POST request !! "choice" = Some v → int v = Some n →
  Choice_objects db !! n = Some c → question_id c = k →
  vote request k db =
    (mkDatabase (Question_objects db)
       (<[n := mkChoice k (choice_text c) (votes c + 1)]> (Choice_objects db)),
     Return (HttpResponseRedirect (polls_results k))).
Proof.
  intros Hq Hv Hn Hc Hk. unfold vote, try_except_else, mbind, View_bind.
  rewrite (get_object_or_404_found _ _ _ Hq).
  rewrite (vote_select_found _ _ _ v n c) by done.
  unfold vote_commit, Choice_save, votes_incr. run_view. by rewrite Hk.
Qed.

(** A vote without a selection, or for an id that is no Choice of the
    question. *)
Lemma vote_invalid db request k q :
  Question_objects db !! k = Some q →
  (POST request !! "choice" = None
   ∨ ∃ v n, POST request !! "choice" = Some v ∧ int v = Some n
          ∧ ∀ c, Choice_objects db !! n = Some c → question_id c ≠ k) →
  vote request k db =
    (db, Return (render "polls/detail.html"
                   {[ "question" := CtxQuestion (mkInstance k q);
                      "error_message" := CtxStr "You didn't select a choice." ]})).
Proof.
  intros Hq Hsel. unfold vote, try_except_else, mbind, View_bind.
  rewrite (get_object_or_404_found _ _ _ Hq).
  unfold vote_select, getitem, choice_set_get, to_pk.
  destruct Hsel as [Hv|(v & n & Hv & Hn & Hc)]; rewrite Hv; run_view; [done|].
  rewrite Hn. simpl.
  apply choice_set_lookup_None in Hc. by rewrite Hc.
Qed.

(** C1: for every published Question and every choice id that resolves
    to a Choice of that Question, [vote] answers with a redirect to the
    results view of the question, adds exactly 1 to the votes of that
    Choice and leaves every other Choice and every Question as it was. *)
Theorem vote_increments_selected now db request k q v n c :
  Question_objects db !! k = Some q → pub_date q ≤ now →
  POST request !! "choice" = Some v → int v = Some n →
  Choice_objects db !! n = Some c → question_id c = k →
  ∃ db' response,
    vote request k db = (db', Return response)
    ∧ response = HttpResponseRedirect (polls_results k)
    ∧ status_code response = 302
    ∧ Choice_objects db' !! n = Some (mkChoice k (choice_text c) (votes c + 1))
    ∧ votes_of db' n = votes_of db n + 1
    ∧ (∀ m, m ≠ n → Choice_objects db' !! m = Choice_objects db !! m)
    ∧ Question_objects db' = Question_objects db.
Proof.
  intros Hq _ Hv Hn Hc Hk. eexists _, _.
  split; [by eapply vote_valid|]. simpl. unfold votes_of. simpl.
  rewrite lookup_insert_eq, Hc. repeat split; try done.
  intros m Hm. by rewrite lookup_insert_ne.
Qed.

(** The selections that the [except] clause of [vote] covers: for every
    existing Question, when the request carries no choice id, or an
    integer id that is no Choice of that Question, [vote] leaves the
    database as it is and answers with the detail view of the question
    and the message "You didn't select a choice.", status 200. *)
Theorem vote_without_valid_choice db request k q :
  Question_objects db !! k = Some q →
  (POST request !! "choice" = None
   ∨ ∃ v n, POST request !! "choice" = Some v ∧ int v = Some n
          ∧ ∀ c, Choice_objects db !! n = Some c → question_id c ≠ k) →
  ∃ response,
    vote request k db = (db, Return response)
    ∧ response = render "polls/detail.html"
                   {[ "question" := CtxQuestion (mkInstance k q);
                      "error_message" := CtxStr "You didn't select a choice." ]}
    ∧ status_code response = 200.
Proof.
  intros Hq Hsel. eexists. split; [by eapply vote_invalid|]. done.
Qed.

(** C3 at a submitted value that is no integer: 'abc' resolves to no
    Choice of the Question, where the claim has the detail view with the
    message "You didn't select a choice."; the lookup raises [ValueError],
    which the [except] clause of [vote] does not name, so the exception
    leaves the handler and no page is rendered.  The database is as it
    was. *)
Lemma vote_non_integer_choice_raises :
  Question_objects test_vote_db !! 1 = Some (mkQuestion "How are you?" 100)
  ∧ POST (post "choice" "abc") !! "choice" = Some "abc"
  ∧ int "abc" = None
  ∧ vote_select (mkInstance 1 (mkQuestion "How are you?" 100))
      (post "choice" "abc") test_vote_db = (test_vote_db, Raise ValueError)
  ∧ vote (post "choice" "abc") 1 test_vote_db = (test_vote_db, Raise ValueError)
  ∧ ∀ response,
      vote (post "choice" "abc") 1 test_vote_db
      ≠ (test_vote_db, Return response).
Proof. repeat split; done. Qed.

(** ** Creating a question *)

Lemma create_blank now db request t :
  POST request !! "new_question" = Some t → blank t = true →
  create now request db =
    (db, Return (render "polls/create.html"
                   {[ "message" := CtxStr "You didn't enter a question." ]})).
Proof.
  intros Ht Hb. unfold create, getitem.
  destruct (POST_Some _ _ _ Ht) as [Hm _]. rewrite decide_True by done.
  rewrite Ht. run_view. by rewrite not_strip_blank, Hb.
Qed.

Lemma create_not_submitted now db request :
  method request ≠ "POST" →
  create now request db = (db, Return (render "polls/create.html" ∅)).
Proof. intros Hm. unfold create. by rewrite decide_False. Qed.

Lemma create_missing now db request :
  method request = "POST" → POST request !! "new_question" = None →
  create now request db = (db, Raise (KeyError "new_question")).
Proof.
  intros Hm Ht. unfold create, getitem. rewrite decide_True by done.
  by rewrite Ht.
Qed.

Lemma create_saves now db request t :
  POST request !! "new_question" = Some t → blank t = false →
  create now request db =
    (mkDatabase (<[next_pk (Question_objects db) := mkQuestion t now]>
                   (Question_objects db))
                (Choice_objects db),
     Return (HttpResponseRedirect polls_index)).
Proof.
  intros Ht Hb. unfold create, getitem.
  destruct (POST_Some _ _ _ Ht) as [Hm _]. rewrite decide_True by done.
  rewrite Ht. run_view. by rewrite not_strip_blank, Hb.
Qed.

(** C4, as the code has it: a create-question request whose text is
    absent, or present and empty after trimming, creates no record; when
    the text is present and empty after trimming the creation form is
    rendered again with the message "You didn't enter a question."; a
    request that is no form submission gets the creation form without a
    message. *)
Theorem create_without_text now db request :
  ((POST request !! "new_question" = None
    ∨ ∃ t, POST request !! "new_question" = Some t ∧ strip t = EmptyString) →
   (create now request db).1 = db)
  ∧ (∀ t, POST request !! "new_question" = Some t → strip t = EmptyString →
       create now request db =
         (db, Return (render "polls/create.html"
                        {[ "message" := CtxStr "You didn't enter a question." ]})))
  ∧ (method request ≠ "POST" →
       create now request db = (db, Return (render "polls/create.html" ∅))).
Proof.
  split; [|split].
  - intros [Ht|(t & Ht & Hs)].
    + destruct (decide (method request = "POST")) as [Hm|Hm].
      * by rewrite create_missing.
      * by rewrite create_not_submitted.
    + apply strip_empty in Hs. by rewrite (create_blank now db request t).
  - intros t Ht Hs. apply strip_empty in Hs. by apply (create_blank _ _ _ t).
  - apply create_not_submitted.
Qed.

(** C4 as stated fails where the text is absent: a GET request gets the
    form without the message, and a POST without the field raises
    [KeyError]. *)
Lemma create_absent_text_no_message :
  POST (mkRequest "GET" ∅) !! "new_question" = None
  ∧ create 0 (mkRequest "GET" ∅) empty_database
    = (empty_database, Return (render "polls/create.html" ∅))
  ∧ create 0 (mkRequest "GET" ∅) empty_database
    ≠ (empty_database,
       Return (render "polls/create.html"
                 {[ "message" := CtxStr "You didn't enter a question." ]}))
  ∧ POST (mkRequest "POST" ∅) !! "new_question" = None
  ∧ create 0 (mkRequest "POST" ∅) empty_database
    = (empty_database, Raise (KeyError "new_question")).
Proof.
  repeat split; done.
Qed.

(** C7: for every create-question request whose text is not empty after
    trimming, [create] inserts exactly one Question, under a key the table
    did not have, with the raw text and the current time as publish
    timestamp, touches nothing else, and redirects to the listing; the
    Question is then found by a lookup on that text. *)
Theorem create_inserts_question now db request t :
  POST request !! "new_question" = Some t → strip t ≠ EmptyString →
  ∃ k db',
    create now request db = (db', Return (HttpResponseRedirect polls_index))
    ∧ Question_objects db !! k = None
    ∧ Question_objects db' = <[k := mkQuestion t now]> (Question_objects db)
    ∧ size (Question_objects db') = S (size (Question_objects db))
    ∧ Choice_objects db' = Choice_objects db
    ∧ filter_question_text t (Question_objects db') !! k
      = Some (mkQuestion t now).
Proof.
  intros Ht Hs. exists (next_pk (Question_objects db)). eexists.
  assert (Hb : blank t = false).
  { destruct (blank t) eqn:Hb; [|done]. by apply strip_empty in Hb. }
  split; [by apply create_saves|]. simpl.
  pose proof (next_pk_fresh (Question_objects db)) as Hk.
  split; [done|]. split; [done|].
  split; [by apply map_size_insert_None|]. split; [done|].
  unfold filter_question_text. apply map_lookup_filter_Some.
  by rewrite lookup_insert_eq.
Qed.

(** ** Creating a choice *)

Lemma create_answer_missing_question db request k :
  Question_objects db !! k = None →
  create_answer request k db = (db, Raise Http404).
Proof.
  intros Hq. unfold create_answer, mbind, View_bind.
  by rewrite (get_object_or_404_missing _ _ Hq).
Qed.

Lemma create_answer_full db request k q :
  Question_objects db !! k = Some q →
  3 ≤ answer_count db (mkInstance k q) →
  create_answer request k db =
    (db, Return (render "polls/detail.html"
                   {[ "message_too_much" :=
                        CtxStr "You can't add moore than 3 answers.";
                      "question" := CtxQuestion (mkInstance k q) ]})).
Proof.
  intros Hq Hn. unfold create_answer, mbind, View_bind.
  rewrite (get_object_or_404_found _ _ _ Hq). run_view.
  rewrite decide_False by lia. done.
Qed.

Lemma create_answer_not_submitted db request k q :
  Question_objects db !! k = Some q →
  answer_count db (mkInstance k q) < 3 →
  method request ≠ "POST" →
  create_answer request k db =
    (db, Return (render "polls/create_answer.html"
                   {[ "question" := CtxQuestion (mkInstance k q) ]})).
Proof.
  intros Hq Hn Hm. unfold create_answer, mbind, View_bind.
  rewrite (get_object_or_404_found _ _ _ Hq). run_view.
  rewrite decide_True by done. by rewrite decide_False.
Qed.

Lemma create_answer_missing db request k q :
  Question_objects db !! k = Some q →
  answer_count db (mkInstance k q) < 3 →
  method request = "POST" → POST request !! "new_answer" = None →
  create_answer request k db = (db, Raise (KeyError "new_answer")).
Proof.
  intros Hq Hn Hm Ht. unfold create_answer, mbind, View_bind.
  rewrite (get_object_or_404_found _ _ _ Hq). run_view.
  rewrite !decide_True by done. unfold getitem. by rewrite Ht.
Qed.

Lemma create_answer_blank db request k q t :
  Question_objects db !! k = Some q →
  answer_count db (mkInstance k q) < 3 →
  POST request !! "new_answer" = Some t → blank t = true →
  create_answer request k db =
    (db, Return (render "polls/create_answer.html"
                   {[ "message" := CtxStr "You didn't enter an answer.";
                      "question" := CtxQuestion (mkInstance k q) ]})).
Proof.
  intros Hq Hn Ht Hb. unfold create_answer, mbind, View_bind.
  rewrite (get_object_or_404_found _ _ _ Hq). run_view.
  destruct (POST_Some _ _ _ Ht) as [Hm _].
  rewrite !decide_True by done. unfold getitem. rewrite Ht. run_view.
  by rewrite not_strip_blank, Hb.
Qed.

Lemma create_answer_adds db request k q t :
  Question_objects db !! k = Some q →
  answer_count db (mkInstance k q) < 3 →
  POST request !! "new_answer" = Some t → blank t = false →
  create_answer request k db =
    (mkDatabase (Question_objects db)
       (<[next_pk (Choice_objects db) := mkChoice k t 0]> (Choice_objects db)),
     Return (HttpResponseRedirect (polls_detail k))).
Proof.
  intros Hq Hn Ht Hb. unfold create_answer, mbind, View_bind.
  rewrite (get_object_or_404_found _ _ _ Hq). run_view.
  destruct (POST_Some _ _ _ Ht) as [Hm _].
  rewrite !decide_True by done. unfold getitem. rewrite Ht. run_view.
  by rewrite not_strip_blank, Hb.
Qed.

(** C8 at a POST without the field [new_answer], for a Question with no
    Choice yet: the handler raises [KeyError] where the claim has the
    creation form with the message "You didn't enter an answer."; the
    database is as it was. *)
Theorem create_answer_absent_text_raises :
  let db := mkDatabase {[ 1 := mkQuestion "How are you?" 0 ]} ∅ in
  let request := mkRequest "POST" ∅ in
  POST request !! "new_answer" = None
  ∧ answer_count db (mkInstance 1 (mkQuestion "How are you?" 0)) = 0
  ∧ create_answer request 1 db = (db, Raise (KeyError "new_answer")).
Proof. repeat split; done. Qed.

(** ** The number of choices of a question *)

Section filter_size.
Context {A : Type} (P : Z * A → Prop) `{!∀ x, Decision (P x)}.
Implicit Types m : gmap Z A.

Lemma size_filter_insert_fresh m i x :
  m !! i = None →
  size (filter P (<[i:=x]> m)) =
    if decide (P (i, x)) then S (size (filter P m)) else size (filter P m).
Proof.
  intros Hi. case_decide as HP.
  - rewrite map_filter_insert_True by done.
    apply map_size_insert_None, map_lookup_filter_None. by left.
  - rewrite map_filter_insert_False by done. by rewrite delete_id.
Qed.

Lemma size_filter_insert_same m i x y :
  m !! i = Some y → (P (i, x) ↔ P (i, y)) →
  size (filter P (<[i:=x]> m)) = size (filter P m).
Proof.
  intros Hi HP. destruct (decide (P (i, x))) as [Hx|Hx].
  - rewrite map_filter_insert_True by done.
    apply map_size_insert_Some. exists y.
    apply map_lookup_filter_Some. split; [done|]. by apply HP.
  - rewrite map_filter_insert_False by done.
    rewrite map_filter_delete, delete_id; [done|].
    apply map_lookup_filter_None. right. intros y' Hy'.
    assert (y' = y) as -> by congruence. by rewrite <-HP.
Qed.
End filter_size.

Lemma answer_count_pk db (a b : Instance Question) :
  pk a = pk b → answer_count db a = answer_count db b.
Proof. unfold answer_count. by intros ->. Qed.

Lemma answer_count_same_choices db db' question :
  Choice_objects db' = Choice_objects db →
  answer_count db' question = answer_count db question.
Proof. unfold answer_count, choice_set. by intros ->. Qed.

(** Saving a Choice that is in the table under the same foreign key
    changes no count. *)
Lemma answer_count_save db n c c' question :
  Choice_objects db !! n = Some c → question_id c' = question_id c →
  answer_count (mkDatabase (Question_objects db)
                  (<[n := c']> (Choice_objects db))) question
  = answer_count db question.
Proof.
  intros Hc Hq. unfold answer_count, choice_set. simpl. f_equal.
  apply (size_filter_insert_same _ _ _ _ c); [done|]. simpl. by rewrite Hq.
Qed.

(** Inserting a Choice under a new key adds 1 to the count of its
    question and changes no other count. *)
Lemma answer_count_insert db c question :
  answer_count (mkDatabase (Question_objects db)
                  (<[next_pk (Choice_objects db) := c]> (Choice_objects db)))
               question
  = if decide (question_id c = pk question)
    then answer_count db question + 1 else answer_count db question.
Proof.
  unfold answer_count, choice_set. simpl.
  rewrite size_filter_insert_fresh by apply next_pk_fresh. simpl.
  case_decide; lia.
Qed.

(** What [vote] can do to the database. *)
Lemma vote_database request k db :
  (vote request k db).1 = db
  ∨ ∃ n c, Choice_objects db !! n = Some c
         ∧ (vote request k db).1 =
             mkDatabase (Question_objects db)
               (<[n := mkChoice (question_id c) (choice_text c) (votes c + 1)]>
                  (Choice_objects db)).
Proof.
  destruct (Question_objects db !! k) as [q|] eqn:Hq.
  2:{ left. unfold vote, mbind, View_bind.
      by rewrite (get_object_or_404_missing _ _ Hq). }
  unfold vote, try_except_else, mbind, View_bind.
  rewrite (get_object_or_404_found _ _ _ Hq).
  unfold vote_select, getitem, choice_set_get, to_pk.
  destruct (POST request !! "choice") as [v|]; run_view; [|by left].
  destruct (int v) as [n|]; run_view; [|by left].
  destruct (choice_set db k !! n) as [c|] eqn:Hc; run_view; [|by left].
  apply choice_set_lookup in Hc as [Hc _]. right. by exists n, c.
Qed.

(** What [create_answer] can do to the database. *)
Lemma create_answer_database request k db :
  (create_answer request k db).1 = db
  ∨ ∃ q t, answer_count db (mkInstance k q) < 3
         ∧ (create_answer request k db).1 =
             mkDatabase (Question_objects db)
               (<[next_pk (Choice_objects db) := mkChoice k t 0]>
                  (Choice_objects db)).
Proof.
  destruct (Question_objects db !! k) as [q|] eqn:Hq.
  2:{ left. by rewrite create_answer_missing_question. }
  destruct (decide (answer_count db (mkInstance k q) < 3)) as [Hn|Hn].
  2:{ left. rewrite (create_answer_full _ _ _ q) by (done || lia). done. }
  destruct (decide (method request = "POST")) as [Hm|Hm].
  2:{ left. by rewrite (create_answer_not_submitted _ _ _ q). }
  destruct (POST request !! "new_answer") as [t|] eqn:Ht.
  2:{ left. by rewrite (create_answer_missing _ _ _ q). }
  destruct (blank t) eqn:Hb.
  - left. by rewrite (create_answer_blank _ _ _ q t).
  - right. exists q, t. split; [done|].
    by rewrite (create_answer_adds _ _ _ q t).
Qed.

Lemma create_choices now request db :
  Choice_objects (create now request db).1 = Choice_objects db.
Proof.
  destruct (decide (method request = "POST")) as [Hm|Hm].
  2:{ by rewrite create_not_submitted. }
  destruct (POST request !! "new_question") as [t|] eqn:Ht.
  2:{ by rewrite create_missing. }
  destruct (blank t) eqn:Hb.
  - by rewrite (create_blank _ _ _ t).
  - by rewrite (create_saves _ _ _ t).
Qed.

Lemma IndexView_database now db : (IndexView now db).1 = db.
Proof. reflexivity. Qed.

Lemma DetailView_database now k db : (DetailView now k db).1 = db.
Proof. by rewrite DetailView_run. Qed.

Lemma ResultsView_database k db : (ResultsView k db).1 = db.
Proof.
  unfold ResultsView, get_object. run_view.
  by destruct (Question_objects db !! k).
Qed.

Lemma dispatch_at_most_3 r db : at_most_3 db → at_most_3 (dispatch r db).1.
Proof.
  intros Hdb question.
  destruct r as [now|now k|k|request k|now request|request k]; unfold dispatch.
  - by rewrite IndexView_database.
  - by rewrite DetailView_database.
  - by rewrite ResultsView_database.
  - destruct (vote_database request k db) as [->|(n & c & Hc & ->)]; [done|].
    by rewrite (answer_count_save _ _ c).
  - rewrite (answer_count_same_choices db); [done|]. apply create_choices.
  - destruct (create_answer_database request k db) as [->|(q & t & Hn & ->)];
      [done|]. rewrite answer_count_insert. case_decide as Hk; [|done].
    simpl in Hk. rewrite (answer_count_pk db question (mkInstance k q)) by done.
    lia.
Qed.

Lemma reachable_at_most_3 db : reachable db → at_most_3 db.
Proof.
  induction 1 as [|db r _ IH].
  - intros question. unfold answer_count, choice_set. simpl.
    by rewrite map_filter_empty, map_size_empty.
  - by apply dispatch_at_most_3.
Qed.

(** C2: every Question of a database that the handlers can produce has
    at most 3 Choices; and when a Question has 3 Choices, a create-choice
    request, whatever its method and its form data, leaves the database
    as it is and renders the detail view with the message
    "You can't add moore than 3 answers.", so that the count is still 3. *)
Theorem at_most_three_answers :
  (∀ db k q, reachable db → Question_objects db !! k = Some q →
             answer_count db (mkInstance k q) ≤ 3)
  ∧ (∀ db request k q,
       Question_objects db !! k = Some q →
       answer_count db (mkInstance k q) = 3 →
       create_answer request k db =
         (db, Return (render "polls/detail.html"
                        {[ "message_too_much" :=
                             CtxStr "You can't add moore than 3 answers.";
                           "question" := CtxQuestion (mkInstance k q) ]}))
       ∧ answer_count (create_answer request k db).1 (mkInstance k q) = 3).
Proof.
  split.
  - intros db k q Hr _. by apply reachable_at_most_3.
  - intros db request k q Hq Hn.
    rewrite (create_answer_full _ _ _ q) by (done || lia). done.
Qed.

(** ** Questions that are not published yet *)

Lemma vote_outcome db request k q :
  Question_objects db !! k = Some q →
  (∃ response, (vote request k db).2 = Return response)
  ∨ (vote request k db).2 = Raise ValueError.
Proof.
  intros Hq. unfold vote, try_except_else, mbind, View_bind.
  rewrite (get_object_or_404_found _ _ _ Hq).
  unfold vote_select, getitem, choice_set_get, to_pk.
  destruct (POST request !! "choice") as [v|]; run_view; [|by eauto].
  destruct (int v) as [n|]; run_view; [|by right].
  destruct (choice_set db k !! n) as [c|]; run_view; by eauto.
Qed.

Lemma create_answer_outcome db request k q :
  Question_objects db !! k = Some q →
  (∃ response, (create_answer request k db).2 = Return response)
  ∨ (create_answer request k db).2 = Raise (KeyError "new_answer").
Proof.
  intros Hq.
  destruct (decide (answer_count db (mkInstance k q) < 3)) as [Hn|Hn].
  2:{ left. rewrite (create_answer_full _ _ _ q) by (done || lia). by eauto. }
  destruct (decide (method request = "POST")) as [Hm|Hm].
  2:{ left. rewrite (create_answer_not_submitted _ _ _ q) by done. by eauto. }
  destruct (POST request !! "new_answer") as [t|] eqn:Ht.
  2:{ right. by rewrite (create_answer_missing _ _ _ q). }
  left. destruct (blank t) eqn:Hb.
  - rewrite (create_answer_blank _ _ _ q t) by done. by eauto.
  - rewrite (create_answer_adds _ _ _ q t) by done. by eauto.
Qed.

(** C10: for every existing Question, whatever its publish timestamp,
    [vote] and [create_answer] never raise [Http404]; for a Question
    whose publish timestamp is after now the detail view raises
    [Http404], while a vote for one of its Choices is counted and, below
    3 Choices, a posted answer is added. *)
Theorem unpublished_question_is_resolved db k q :
  Question_objects db !! k = Some q →
  (∀ request, (vote request k db).2 ≠ Raise Http404)
  ∧ (∀ request, (create_answer request k db).2 ≠ Raise Http404)
  ∧ ∀ now, now < pub_date q →
      DetailView now k db = (db, Raise Http404)
      ∧ (∀ request v n c,
           POST request !! "choice" = Some v → int v = Some n →
           Choice_objects db !! n = Some c → question_id c = k →
           vote request k db =
             (mkDatabase (Question_objects db)
                (<[n := mkChoice k (choice_text c) (votes c + 1)]>
                   (Choice_objects db)),
              Return (HttpResponseRedirect (polls_results k))))
      ∧ (∀ request t,
           answer_count db (mkInstance k q) < 3 →
           POST request !! "new_answer" = Some t → strip t ≠ EmptyString →
           create_answer request k db =
             (mkDatabase (Question_objects db)
                (<[next_pk (Choice_objects db) := mkChoice k t 0]>
                   (Choice_objects db)),
              Return (HttpResponseRedirect (polls_detail k)))).
Proof.
  intros Hq. split; [|split].
  - intros request.
    destruct (vote_outcome db request k q Hq) as [[r ->]| ->]; done.
  - intros request.
    destruct (create_answer_outcome db request k q Hq) as [[r ->]| ->]; done.
  - intros now Hnow. split; [|split].
    + by apply (DetailView_unpublished now db k q).
    + intros request v n c Hv Hn Hc Hk. by eapply vote_valid.
    + intros request t Hn Ht Hs. apply (create_answer_adds _ _ _ q t); try done.
      destruct (blank t) eqn:Hb; [|done]. by apply strip_empty in Hb.
Qed.

(** ** Votes that interleave *)

Lemma vote_interleaved_same db request1 request2 k q v1 v2 n c :
  Question_objects db !! k = Some q →
  POST request1 !! "choice" = Some v1 → int v1 = Some n →
  POST request2 !! "choice" = Some v2 → int v2 = Some n →
  Choice_objects db !! n = Some c → question_id c = k →
  vote_interleaved request1 request2 k db =
    (mkDatabase (Question_objects db)
       (<[n := mkChoice k (choice_text c) (votes c + 1)]> (Choice_objects db)),
     Return (HttpResponseRedirect (polls_results k),
             HttpResponseRedirect (polls_results k))).
Proof.
  intros Hq Hv1 Hn1 Hv2 Hn2 Hc Hk. unfold vote_interleaved, mbind, View_bind.
  rewrite (get_object_or_404_found _ _ _ Hq).
  rewrite (vote_select_found _ _ _ v1 n c) by done.
  rewrite (get_object_or_404_found _ _ _ Hq).
  rewrite (vote_select_found _ _ _ v2 n c) by done.
  unfold vote_commit, Choice_save, votes_incr. run_view.
  by rewrite insert_insert_eq, Hk.
Qed.

(** C9, as the code has it: [vote] reads the Choice, adds 1 to the votes
    of the instance in memory and saves the instance.  Two votes for the
    same Choice handled one after the other add 2; when both have read
    the Choice before either saves, both are answered with the redirect
    and the count grows by 1 only. *)
Theorem vote_is_read_modify_write db request1 request2 k q v1 v2 n c :
  Question_objects db !! k = Some q →
  POST request1 !! "choice" = Some v1 → int v1 = Some n →
  POST request2 !! "choice" = Some v2 → int v2 = Some n →
  Choice_objects db !! n = Some c → question_id c = k →
  votes_of (vote request2 k (vote request1 k db).1).1 n = votes_of db n + 2
  ∧ ∃ db',
      vote_interleaved request1 request2 k db =
        (db', Return (HttpResponseRedirect (polls_results k),
                      HttpResponseRedirect (polls_results k)))
      ∧ votes_of db' n = votes_of db n + 1.
Proof.
  intros Hq Hv1 Hn1 Hv2 Hn2 Hc Hk. split.
  - rewrite (vote_valid db request1 k q v1 n c) by done. simpl.
    rewrite (vote_valid _ request2 k q v2 n
               (mkChoice k (choice_text c) (votes c + 1)));
      [|done..|apply lookup_insert_eq|done].
    unfold votes_of. simpl. rewrite lookup_insert_eq, Hc. simpl. lia.
  - eexists. split; [by eapply vote_interleaved_same|].
    unfold votes_of. simpl. by rewrite lookup_insert_eq, Hc.
Qed.

(** C9 as stated fails: on the database of [TestVote], two votes for
    'Fine' that interleave are both answered with the redirect, and
    'Fine' ends with 1 vote, not 2. *)
Lemma vote_interleaved_loses_update :
  votes_of test_vote_db 1 = 0
  ∧ ∃ db',
      vote_interleaved (post "choice" "1") (post "choice" "1") 1 test_vote_db =
        (db', Return (HttpResponseRedirect (polls_results 1),
                      HttpResponseRedirect (polls_results 1)))
      ∧ votes_of db' 1 = 1
      ∧ votes_of db' 1 ≠ 2.
Proof. split; [done|]. eexists. split; [reflexivity|]. done. Qed.

(** ** The theorems at the data of [tests.py] *)

Lemma index_listing_witness :
  ∃ l, IndexView_get_queryset 200 test_vote_db = (test_vote_db, Return l)
     ∧ (length l ≤ 5)%nat
     ∧ ∀ i j a b, (i < j)%nat → l !! i = Some a → l !! j = Some b →
                  pub_date (fields b) ≤ pub_date (fields a).
Proof.
  destruct (index_listing 200 test_vote_db) as (l & Hl & _ & Hn & _ & _ & Hs).
  exists l. exact (conj Hl (conj Hn Hs)).
Defined.

Lemma vote_increments_selected_witness :
  let q := mkQuestion "How are you?" 100 in
  let c := mkChoice 1 "Fine" 0 in
  (Question_objects test_vote_db !! 1 = Some q ∧ pub_date q ≤ 200
   ∧ POST (post "choice" "1") !! "choice" = Some "1" ∧ int "1" = Some 1
   ∧ Choice_objects test_vote_db !! 1 = Some c ∧ question_id c = 1)
  ∧ ∃ db' response,
      vote (post "choice" "1") 1 test_vote_db = (db', Return response)
      ∧ response = HttpResponseRedirect (polls_results 1)
      ∧ status_code response = 302
      ∧ Choice_objects db' !! 1 = Some (mkChoice 1 "Fine" 1)
      ∧ votes_of db' 1 = votes_of test_vote_db 1 + 1
      ∧ (∀ m, m ≠ 1 → Choice_objects db' !! m = Choice_objects test_vote_db !! m)
      ∧ Question_objects db' = Question_objects test_vote_db.
Proof.
  intros q c.
  assert (Hq : Question_objects test_vote_db !! 1 = Some q) by reflexivity.
  assert (Hp : pub_date q ≤ 200) by (simpl; lia).
  assert (Hv : POST (post "choice" "1") !! "choice" = Some "1") by reflexivity.
  assert (Hn : int "1" = Some 1) by reflexivity.
  assert (Hc : Choice_objects test_vote_db !! 1 = Some c) by reflexivity.
  assert (Hk : question_id c = 1) by reflexivity.
  split; [repeat split; assumption|].
  exact (vote_increments_selected 200 test_vote_db (post "choice" "1") 1 q
           "1" 1 c Hq Hp Hv Hn Hc Hk).
Defined.

Lemma vote_without_valid_choice_witness :
  let q := mkQuestion "How are you?" 100 in
  (∃ response,
     vote (post "choice" "5") 1 test_vote_db = (test_vote_db, Return response)
     ∧ response = render "polls/detail.html"
                    {[ "question" := CtxQuestion (mkInstance 1 q);
                       "error_message" := CtxStr "You didn't select a choice." ]}
     ∧ status_code response = 200)
  ∧ (∃ response,
       vote (mkRequest "POST" ∅) 1 test_vote_db = (test_vote_db, Return response)
       ∧ response = render "polls/detail.html"
                      {[ "question" := CtxQuestion (mkInstance 1 q);
                         "error_message" := CtxStr "You didn't select a choice." ]}
       ∧ status_code response = 200).
Proof.
  intros q.
  assert (Hq : Question_objects test_vote_db !! 1 = Some q) by reflexivity.
  split.
  - apply (vote_without_valid_choice test_vote_db (post "choice" "5") 1 q Hq).
    right. exists "5", 5. split; [reflexivity|]. split; [reflexivity|].
    intros c Hc. vm_compute in Hc. discriminate Hc.
  - apply (vote_without_valid_choice test_vote_db (mkRequest "POST" ∅) 1 q Hq).
    left. reflexivity.
Defined.

Lemma create_without_text_witness :
  (create 100 (post "new_question" " ") empty_database).1 = empty_database
  ∧ create 100 (post "new_question" " ") empty_database =
      (empty_database,
       Return (render "polls/create.html"
                 {[ "message" := CtxStr "You didn't enter a question." ]}))
  ∧ (create 100 (mkRequest "POST" ∅) empty_database).1 = empty_database
  ∧ create 100 (mkRequest "GET" ∅) empty_database =
      (empty_database, Return (render "polls/create.html" ∅)).
Proof.
  split; [|split; [|split]].
  - apply (create_without_text 100 empty_database (post "new_question" " ")).
    right. exists " ". split; reflexivity.
  - apply (create_without_text 100 empty_database (post "new_question" " "))
      with (t := " "); reflexivity.
  - apply (create_without_text 100 empty_database (mkRequest "POST" ∅)).
    left. reflexivity.
  - apply (create_without_text 100 empty_database (mkRequest "GET" ∅)).
    simpl. discriminate.
Defined.

Lemma create_inserts_question_witness :
  (POST (post "new_question" "How are you?") !! "new_question"
     = Some "How are you?"
   ∧ strip "How are you?" ≠ EmptyString)
  ∧ ∃ k db',
      create 100 (post "new_question" "How are you?") empty_database
        = (db', Return (HttpResponseRedirect polls_index))
      ∧ Question_objects empty_database !! k = None
      ∧ Question_objects db'
        = <[k := mkQuestion "How are you?" 100]> (Question_objects empty_database)
      ∧ size (Question_objects db') = S (size (Question_objects empty_database))
      ∧ Choice_objects db' = Choice_objects empty_database
      ∧ filter_question_text "How are you?" (Question_objects db') !! k
        = Some (mkQuestion "How are you?" 100).
Proof.
  assert (Ht : POST (post "new_question" "How are you?") !! "new_question"
               = Some "How are you?") by reflexivity.
  assert (Hs : strip "How are you?" ≠ EmptyString) by (vm_compute; discriminate).
  split; [exact (conj Ht Hs)|].
  exact (create_inserts_question 100 empty_database
           (post "new_question" "How are you?") "How are you?" Ht Hs).
Defined.

Lemma three_answers_db_reachable : reachable three_answers_db.
Proof.
  unfold three_answers_db. repeat apply reachable_step. apply reachable_empty.
Qed.

Lemma at_most_three_answers_witness :
  let q := mkQuestion "How are you?" 100 in
  (reachable three_answers_db
   ∧ Question_objects three_answers_db !! 1 = Some q
   ∧ answer_count three_answers_db (mkInstance 1 q) = 3)
  ∧ answer_count three_answers_db (mkInstance 1 q) ≤ 3
  ∧ create_answer (post "new_answer" "Forth answer") 1 three_answers_db =
      (three_answers_db,
       Return (render "polls/detail.html"
                 {[ "message_too_much" :=
                      CtxStr "You can't add moore than 3 answers.";
                    "question" := CtxQuestion (mkInstance 1 q) ]}))
  ∧ answer_count
      (create_answer (post "new_answer" "Forth answer") 1 three_answers_db).1
      (mkInstance 1 q) = 3.
Proof.
  intros q.
  pose proof three_answers_db_reachable as Hr.
  assert (Hq : Question_objects three_answers_db !! 1 = Some q)
    by (vm_compute; reflexivity).
  assert (Hn : answer_count three_answers_db (mkInstance 1 q) = 3)
    by (vm_compute; reflexivity).
  split; [exact (conj Hr (conj Hq Hn))|]. split.
  - exact (proj1 at_most_three_answers three_answers_db 1 q Hr Hq).
  - exact (proj2 at_most_three_answers three_answers_db
             (post "new_answer" "Forth answer") 1 q Hq Hn).
Defined.

Lemma unpublished_question_is_resolved_witness :
  let q := mkQuestion "How are you?" 100 in
  (Question_objects test_vote_db !! 1 = Some q ∧ 50 < pub_date q)
  ∧ DetailView 50 1 test_vote_db = (test_vote_db, Raise Http404)
  ∧ (vote (post "choice" "1") 1 test_vote_db).2 ≠ Raise Http404
  ∧ (create_answer (post "new_answer" "some answer") 1 test_vote_db).2
    ≠ Raise Http404
  ∧ vote (post "choice" "1") 1 test_vote_db =
      (mkDatabase (Question_objects test_vote_db)
         (<[1 := mkChoice 1 "Fine" 1]> (Choice_objects test_vote_db)),
       Return (HttpResponseRedirect (polls_results 1)))
  ∧ create_answer (post "new_answer" "some answer") 1 test_vote_db =
      (mkDatabase (Question_objects test_vote_db)
         (<[next_pk (Choice_objects test_vote_db) :=
              mkChoice 1 "some answer" 0]> (Choice_objects test_vote_db)),
       Return (HttpResponseRedirect (polls_detail 1))).
Proof.
  intros q.
  assert (Hq : Question_objects test_vote_db !! 1 = Some q) by reflexivity.
  assert (Hp : 50 < pub_date q) by (simpl; lia).
  destruct (unpublished_question_is_resolved test_vote_db 1 q Hq)
    as (Hvote & Hadd & Hfuture).
  destruct (Hfuture 50 Hp) as (Hdetail & Hcounted & Hadded).
  split; [exact (conj Hq Hp)|]. split; [exact Hdetail|].
  split; [exact (Hvote _)|]. split; [exact (Hadd _)|]. split.
  - apply (Hcounted (post "choice" "1") "1" 1 (mkChoice 1 "Fine" 0));
      reflexivity.
  - apply (Hadded (post "new_answer" "some answer") "some answer").
    + vm_compute. reflexivity.
    + reflexivity.
    + vm_compute. discriminate.
Defined.

Lemma vote_is_read_modify_write_witness :
  let request := post "choice" "1" in
  votes_of (vote request 1 (vote request 1 test_vote_db).1).1 1
    = votes_of test_vote_db 1 + 2
  ∧ ∃ db',
      vote_interleaved request request 1 test_vote_db =
        (db', Return (HttpResponseRedirect (polls_results 1),
                      HttpResponseRedirect (polls_results 1)))
      ∧ votes_of db' 1 = votes_of test_vote_db 1 + 1.
Proof.
  intros request.
  apply (vote_is_read_modify_write test_vote_db request request 1
           (mkQuestion "How are you?" 100) "1" "1" 1 (mkChoice 1 "Fine" 0));
    reflexivity.
Defined.

(** * Further properties of the views *)

(** ** What each handler can do *)

(** The four ways [vote] can end. *)
Lemma vote_cases request k db :
  (Question_objects db !! k = None
   ∧ vote request k db = (db, Raise Http404))
  ∨ (∃ q, Question_objects db !! k = Some q
        ∧ (POST request !! "choice" = None
           ∨ ∃ v n, POST request !! "choice" = Some v ∧ int v = Some n
                  ∧ ∀ c, Choice_objects db !! n = Some c → question_id c ≠ k)
        ∧ vote request k db =
            (db, Return (render "polls/detail.html"
                   {[ "question" := CtxQuestion (mkInstance k q);
                      "error_message" :=
                        CtxStr "You didn't select a choice." ]})))
  ∨ (∃ q v, Question_objects db !! k = Some q
        ∧ POST request !! "choice" = Some v ∧ int v = None
        ∧ vote request k db = (db, Raise ValueError))
  ∨ (∃ q v n c, Question_objects db !! k = Some q
        ∧ POST request !! "choice" = Some v ∧ int v = Some n
        ∧ Choice_objects db !! n = Some c ∧ question_id c = k
        ∧ vote request k db =
            (mkDatabase (Question_objects db)
               (<[n := mkChoice k (choice_text c) (votes c + 1)]>
                  (Choice_objects db)),
             Return (HttpResponseRedirect (polls_results k)))).
Proof.
  destruct (Question_objects db !! k) as [q|] eqn:Hq.
  2:{ left. split; [done|]. unfold vote, mbind, View_bind.
      by rewrite (get_object_or_404_missing _ _ Hq). }
  right. destruct (POST request !! "choice") as [v|] eqn:Hv.
  2:{ left. exists q. split; [done|]. split; [by left|].
      apply vote_invalid; [done|by left]. }
  destruct (int v) as [n|] eqn:Hn.
  2:{ right. left. exists q, v. repeat split; try done.
      unfold vote, try_except_else, mbind, View_bind.
      rewrite (get_object_or_404_found _ _ _ Hq).
      unfold vote_select, getitem, choice_set_get, to_pk.
      rewrite Hv. run_view. by rewrite Hn. }
  destruct (choice_set db k !! n) as [c|] eqn:Hc.
  - apply choice_set_lookup in Hc as [Hc Hk].
    right. right. exists q, v, n, c. repeat split; try done.
    by apply (vote_valid _ _ _ q v).
  - left. exists q.
    pose proof (proj1 (choice_set_lookup_None _ _ _) Hc) as Hc'.
    split; [done|]. split; [right; by exists v, n|].
    apply vote_invalid; [done|]. right. by exists v, n.
Qed.

(** The four ways [create] can end. *)
Lemma create_cases now request db :
  (method request ≠ "POST"
   ∧ create now request db = (db, Return (render "polls/create.html" ∅)))
  ∨ (method request = "POST" ∧ POST request !! "new_question" = None
     ∧ create now request db = (db, Raise (KeyError "new_question")))
  ∨ (∃ t, POST request !! "new_question" = Some t ∧ blank t = true
        ∧ create now request db =
            (db, Return (render "polls/create.html"
                   {[ "message" := CtxStr "You didn't enter a question." ]})))
  ∨ (∃ t, POST request !! "new_question" = Some t ∧ blank t = false
        ∧ create now request db =
            (mkDatabase (<[next_pk (Question_objects db) := mkQuestion t now]>
                           (Question_objects db))
                        (Choice_objects db),
             Return (HttpResponseRedirect polls_index))).
Proof.
  destruct (decide (method request = "POST")) as [Hm|Hm].
  2:{ left. split; [done|]. by apply create_not_submitted. }
  right. destruct (POST request !! "new_question") as [t|] eqn:Ht.
  2:{ left. split; [done|]. split; [done|]. by apply create_missing. }
  right. destruct (blank t) eqn:Hb.
  - left. exists t. repeat split; try done. by apply (create_blank _ _ _ t).
  - right. exists t. repeat split; try done. by apply (create_saves _ _ _ t).
Qed.

(** The six ways [create_answer] can end. *)
Lemma create_answer_cases request k db :
  (Question_objects db !! k = None
   ∧ create_answer request k db = (db, Raise Http404))
  ∨ ∃ q, Question_objects db !! k = Some q ∧
     ((3 ≤ answer_count db (mkInstance k q)
       ∧ create_answer request k db =
           (db, Return (render "polls/detail.html"
                  {[ "message_too_much" :=
                       CtxStr "You can't add moore than 3 answers.";
                     "question" := CtxQuestion (mkInstance k q) ]})))
      ∨ (answer_count db (mkInstance k q) < 3 ∧ method request ≠ "POST"
         ∧ create_answer request k db =
             (db, Return (render "polls/create_answer.html"
                    {[ "question" := CtxQuestion (mkInstance k q) ]})))
      ∨ (answer_count db (mkInstance k q) < 3 ∧ method request = "POST"
         ∧ POST request !! "new_answer" = None
         ∧ create_answer request k db = (db, Raise (KeyError "new_answer")))
      ∨ (∃ t, answer_count db (mkInstance k q) < 3
            ∧ POST request !! "new_answer" = Some t ∧ blank t = true
            ∧ create_answer request k db =
                (db, Return (render "polls/create_answer.html"
                       {[ "message" := CtxStr "You didn't enter an answer.";
                          "question" := CtxQuestion (mkInstance k q) ]})))
      ∨ (∃ t, answer_count db (mkInstance k q) < 3
            ∧ POST request !! "new_answer" = Some t ∧ blank t = false
            ∧ create_answer request k db =
                (mkDatabase (Question_objects db)
                   (<[next_pk (Choice_objects db) := mkChoice k t 0]>
                      (Choice_objects db)),
                 Return (HttpResponseRedirect (polls_detail k))))).
Proof.
  destruct (Question_objects db !! k) as [q|] eqn:Hq.
  2:{ left. split; [done|]. by apply create_answer_missing_question. }
  right. exists q. split; [done|].
  destruct (decide (answer_count db (mkInstance k q) < 3)) as [Hn|Hn].
  2:{ left. split; [lia|]. apply create_answer_full; [done|lia]. }
  right. destruct (decide (method request = "POST")) as [Hm|Hm].
  2:{ left. repeat split; try done. by apply create_answer_not_submitted. }
  right. destruct (POST request !! "new_answer") as [t|] eqn:Ht.
  2:{ left. repeat split; try done. by apply (create_answer_missing _ _ _ q). }
  right. destruct (blank t) eqn:Hb.
  - left. exists t. repeat split; try done.
    by apply (create_answer_blank _ _ _ q t).
  - right. exists t. repeat split; try done.
    by apply (create_answer_adds _ _ _ q t).
Qed.

(** ** The results view *)

(** X1: [ResultsView] has no [get_queryset] of its own: it renders the
    results of every stored Question, [Http404] only for an unknown id,
    and never changes the database; for a Question whose publish
    timestamp is after now it renders the results where the detail view
    raises [Http404]. *)
Theorem results_ignore_publication db k :
  ResultsView k db =
    (db, match Question_objects db !! k with
         | Some q => Return (render "polls/results.html"
                       {[ "question" := CtxQuestion (mkInstance k q) ]})
         | None => Raise Http404
         end)
  ∧ ∀ now q, Question_objects db !! k = Some q → now < pub_date q →
      DetailView now k db = (db, Raise Http404)
      ∧ ResultsView k db =
          (db, Return (render "polls/results.html"
                 {[ "question" := CtxQuestion (mkInstance k q) ]})).
Proof.
  assert (Hr : ResultsView k db =
    (db, match Question_objects db !! k with
         | Some q => Return (render "polls/results.html"
                       {[ "question" := CtxQuestion (mkInstance k q) ]})
         | None => Raise Http404
         end)).
  { unfold ResultsView, get_object. run_view.
    by destruct (Question_objects db !! k). }
  split; [done|]. intros now q Hq Hnow. split.
  - by apply (DetailView_unpublished now db k q).
  - by rewrite Hr, Hq.
Qed.

(** ** The listing holds the most recent questions *)

Lemma length_order_by qs :
  length (order_by_pub_date_desc qs) = size qs.
Proof.
  unfold order_by_pub_date_desc, instances.
  by rewrite merge_sort_Permutation, length_fmap, length_map_to_list.
Qed.

Lemma NoDup_pk_order_by qs : NoDup (pk <$> order_by_pub_date_desc qs).
Proof.
  unfold order_by_pub_date_desc, instances.
  rewrite merge_sort_Permutation, <-list_fmap_compose.
  apply (NoDup_fst_map_to_list qs).
Qed.

Lemma listing_all_when_few now db k q :
  (published_count now db ≤ 5)%nat →
  Question_objects db !! k = Some q → pub_date q ≤ now →
  mkInstance k q
    ∈ take 5 (order_by_pub_date_desc
                (filter_pub_date_lte now (Question_objects db))).
Proof.
  intros Hn Hq Hle. rewrite take_ge by by rewrite length_order_by.
  apply elem_of_order_by. simpl. by apply filter_pub_date_lte_lookup.
Qed.

Lemma listing_elem now db a :
  a ∈ take 5 (order_by_pub_date_desc
                (filter_pub_date_lte now (Question_objects db))) →
  Question_objects db !! pk a = Some (fields a) ∧ pub_date (fields a) ≤ now.
Proof.
  intros Ha. apply elem_of_take in Ha as (i & Ha & _).
  apply list_elem_of_lookup_2, elem_of_order_by in Ha.
  by apply filter_pub_date_lte_lookup in Ha.
Qed.

(** X2: the listing has exactly min(5, number of published Questions)
    entries, lists no Question twice, and leaves out a published
    Question only in favour of Questions published no earlier; with at
    most 5 published Questions it lists them all. *)
Theorem index_listing_most_recent now db :
  ∃ l, IndexView_get_queryset now db = (db, Return l)
     ∧ length l = (5 `min` published_count now db)%nat
     ∧ NoDup (pk <$> l)
     ∧ (∀ k q, Question_objects db !! k = Some q → pub_date q ≤ now →
          mkInstance k q ∈ l
          ∨ ∀ a, a ∈ l → pub_date q ≤ pub_date (fields a))
     ∧ ((published_count now db ≤ 5)%nat →
        ∀ k q, Question_objects db !! k = Some q → pub_date q ≤ now →
               mkInstance k q ∈ l).
Proof.
  eexists. split; [reflexivity|].
  set (qs := filter_pub_date_lte now (Question_objects db)).
  set (s := order_by_pub_date_desc qs).
  assert (Hin : ∀ k q, Question_objects db !! k = Some q → pub_date q ≤ now →
                       mkInstance k q ∈ s).
  { intros k q Hq Hle. apply elem_of_order_by. simpl.
    by apply filter_pub_date_lte_lookup. }
  split; [|split; [|split]].
  - rewrite length_take. unfold s. by rewrite length_order_by.
  - rewrite fmap_take.
    apply (sublist_NoDup _ _ (NoDup_pk_order_by qs)), sublist_take.
  - intros k q Hq Hle. specialize (Hin k q Hq Hle).
    rewrite <-(take_drop 5 s) in Hin. apply elem_of_app in Hin as [Hin|Hin].
    + by left.
    + right. intros a Ha.
      pose proof (order_by_sorted qs) as Hs. fold s in Hs.
      rewrite <-(take_drop 5 s) in Hs.
      apply (StronglySorted_app_1_elem_of newer _ _ a (mkInstance k q) Hs Ha Hin).
  - intros Hn k q Hq Hle. rewrite take_ge; [by apply Hin|].
    unfold s. rewrite length_order_by. done.
Qed.

(** ** How a vote can end *)

(** X3: [vote] raises [Http404] exactly for an unknown question id and
    [ValueError] exactly when the question exists and the submitted
    choice is no integer; [KeyError] and [DoesNotExist] never leave it. *)
Theorem vote_outcomes request k db :
  ((vote request k db).2 = Raise Http404 ↔ Question_objects db !! k = None)
  ∧ ((vote request k db).2 = Raise ValueError ↔
       is_Some (Question_objects db !! k)
       ∧ ∃ v, POST request !! "choice" = Some v ∧ int v = None)
  ∧ (∀ key, (vote request k db).2 ≠ Raise (KeyError key))
  ∧ (vote request k db).2 ≠ Raise DoesNotExist.
Proof.
  destruct (vote_cases request k db)
    as [[Hq ->]|[(q & Hq & Hsel & ->)|[(q & v & Hq & Hv & Hn & ->)
        |(q & v & n & c & Hq & Hv & Hn & Hc & Hk & ->)]]]; simpl.
  all: repeat split; try done; try congruence.
  - intros [[q' Hq'] _]. congruence.
  - intros [_ (v & Hv & Hn)].
    destruct Hsel as [Hnone|(v' & n & Hv' & Hn' & _)]; congruence.
  - by exists v.
  - intros [_ (v' & Hv' & Hn')]. congruence.
Qed.

(** ** When the database changes *)

Lemma insert_fresh_ne {A} (m : gmap Z A) i x : m !! i = None → <[i:=x]> m ≠ m.
Proof. intros Hi Heq. rewrite <-Heq, lookup_insert_eq in Hi. done. Qed.

(** Every way a request can end, as far as the database goes: it is
    left alone and the outcome is no redirect, or a Choice gains one vote
    ([vote]), or a Question is inserted ([create]), or a Choice without
    votes is inserted under an existing Question ([create_answer]); the
    three changes are answered with a redirect to a POST request. *)
Lemma dispatch_cases r db :
  (dispatch r db).1 = db ∧ is_redirect (dispatch r db).2 = false
  ∨ ∃ request, route_request r = Some request ∧ method request = "POST" ∧
     ((∃ k n c, Choice_objects db !! n = Some c
         ∧ is_Some (Question_objects db !! k) ∧ question_id c = k
         ∧ dispatch r db =
             (mkDatabase (Question_objects db)
                (<[n := mkChoice k (choice_text c) (votes c + 1)]>
                   (Choice_objects db)),
              Return (HttpResponseRedirect (polls_results k))))
      ∨ (∃ q, dispatch r db =
             (mkDatabase (<[next_pk (Question_objects db) := q]>
                            (Question_objects db))
                         (Choice_objects db),
              Return (HttpResponseRedirect polls_index)))
      ∨ (∃ k t, is_Some (Question_objects db !! k)
         ∧ (∀ q, answer_count db (mkInstance k q) < 3)
         ∧ dispatch r db =
             (mkDatabase (Question_objects db)
                (<[next_pk (Choice_objects db) := mkChoice k t 0]>
                   (Choice_objects db)),
              Return (HttpResponseRedirect (polls_detail k))))).
Proof.
  destruct r as [now|now k|k|request k|now request|request k]; unfold dispatch.
  - by left.
  - left. rewrite DetailView_run.
    destruct (Question_objects db !! k); [|done]. by case_decide.
  - left. rewrite ResultsView_run.
    by destruct (Question_objects db !! k).
  - destruct (vote_cases request k db)
      as [[Hq ->]|[(q & Hq & Hsel & ->)|[(q & v & Hq & Hv & Hn & ->)
          |(q & v & n & c & Hq & Hv & Hn & Hc & Hk & ->)]]];
      [by left..|].
    right. exists request. split; [done|].
    split; [by apply (POST_Some _ _ _ Hv)|]. left. by exists k, n, c.
  - destruct (create_cases now request db)
      as [[Hm ->]|[(Hm & Ht & ->)|[(t & Ht & Hb & ->)|(t & Ht & Hb & ->)]]];
      [by left..|].
    right. exists request. split; [done|].
    split; [by apply (POST_Some _ _ _ Ht)|]. right. left. by eexists.
  - destruct (create_answer_cases request k db)
      as [[Hq ->]|(q & Hq & [[Hn ->]|[(Hn & Hm & ->)|[(Hn & Hm & Ht & ->)
          |[(t & Hn & Ht & Hb & ->)|(t & Hn & Ht & Hb & ->)]]]])];
      [by left..|].
    right. exists request. split; [done|].
    split; [by apply (POST_Some _ _ _ Ht)|]. right. right.
    exists k, t. split; [done|]. split; [|done].
    intros q'. by rewrite (answer_count_pk _ _ (mkInstance k q)).
Qed.

(** X4: a request changes the database exactly when it is answered
    with a redirect; a rendered page or an exception leaves every row as
    it was. *)
Theorem mutation_iff_redirect r db :
  (dispatch r db).1 ≠ db ↔ is_redirect (dispatch r db).2 = true.
Proof.
  destruct (dispatch_cases r db)
    as [[Hdb Hred]|(request & _ & _ &
        [(k & n & c & Hc & _ & _ & Hd)|[(q & Hd)|(k & t & _ & _ & Hd)]])].
  - rewrite Hdb, Hred. split; [done|discriminate].
  - rewrite Hd. simpl. split; [done|]. intros _ Heq.
    apply (f_equal Choice_objects) in Heq. simpl in Heq.
    rewrite <-Heq, lookup_insert_eq in Hc. injection Hc as Hv.
    apply (f_equal votes) in Hv. simpl in Hv. lia.
  - rewrite Hd. simpl. split; [done|]. intros _ Heq.
    apply (f_equal Question_objects) in Heq. simpl in Heq.
    by apply insert_fresh_ne in Heq; [|apply next_pk_fresh].
  - rewrite Hd. simpl. split; [done|]. intros _ Heq.
    apply (f_equal Choice_objects) in Heq. simpl in Heq.
    by apply insert_fresh_ne in Heq; [|apply next_pk_fresh].
Qed.

(** X5: only a POST request changes the database: [IndexView],
    [DetailView] and [ResultsView] never do, and [vote], [create] and
    [create_answer] do not for any other method. *)
Theorem only_post_mutates r db :
  (dispatch r db).1 ≠ db →
  ∃ request, route_request r = Some request ∧ method request = "POST".
Proof.
  intros Hne.
  destruct (dispatch_cases r db) as [[Hdb _]|(request & Hr & Hm & _)];
    [done|]. by exists request.
Qed.

(** ** What no request undoes *)

Lemma keeps_rows_refl db : keeps_rows db db.
Proof. split; [done|]. intros n c Hc. exists c. repeat split; (done || lia). Qed.

Lemma keeps_rows_trans db1 db2 db3 :
  keeps_rows db1 db2 → keeps_rows db2 db3 → keeps_rows db1 db3.
Proof.
  intros [Hq1 Hc1] [Hq2 Hc2]. split; [by auto|]. intros n c Hc.
  destruct (Hc1 n c Hc) as (c' & Hc' & Hk' & Ht' & Hv').
  destruct (Hc2 n c' Hc') as (c'' & Hc'' & Hk'' & Ht'' & Hv'').
  exists c''. repeat split; (congruence || lia).
Qed.

Lemma dispatch_keeps_rows r db : keeps_rows db (dispatch r db).1.
Proof.
  destruct (dispatch_cases r db)
    as [[Hdb _]|(request & _ & _ &
        [(k & n & c & Hc & _ & Hk & Hd)|[(q & Hd)|(k & t & _ & _ & Hd)]])].
  - rewrite Hdb. apply keeps_rows_refl.
  - rewrite Hd. split; [done|]. simpl. intros m c0 Hc0.
    destruct (decide (m = n)) as [->|Hm].
    + rewrite lookup_insert_eq. eexists. split; [done|]. simpl.
      assert (c0 = c) as -> by congruence. repeat split; (done || lia).
    + rewrite lookup_insert_ne by done. exists c0. repeat split; (done || lia).
  - rewrite Hd. split; simpl; [|apply keeps_rows_refl].
    intros k q0 Hq0. rewrite lookup_insert_ne; [done|].
    intros <-. by rewrite next_pk_fresh in Hq0.
  - rewrite Hd. split; [done|]. simpl. intros m c0 Hc0.
    rewrite lookup_insert_ne.
    + exists c0. repeat split; (done || lia).
    + intros <-. by rewrite next_pk_fresh in Hc0.
Qed.

(** X6: no run of requests deletes or alters a Question, deletes a
    Choice, changes the text or the owner of a Choice, or lowers its
    votes. *)
Theorem serve_keeps_rows rs db :
  (∀ k q, Question_objects db !! k = Some q →
          Question_objects (serve rs db).1 !! k = Some q)
  ∧ (∀ n c, Choice_objects db !! n = Some c →
       ∃ c', Choice_objects (serve rs db).1 !! n = Some c'
           ∧ question_id c' = question_id c
           ∧ choice_text c' = choice_text c
           ∧ votes c ≤ votes c').
Proof.
  change (keeps_rows db (serve rs db).1).
  revert db. induction rs as [|r rs IH]; intros db; simpl.
  - apply keeps_rows_refl.
  - eapply keeps_rows_trans; [apply dispatch_keeps_rows|apply IH].
Qed.

(** ** Runs and reachable databases *)

Lemma serve_app rs1 rs2 db :
  (serve (rs1 ++ rs2)%list db).1 = (serve rs2 (serve rs1 db).1).1.
Proof.
  revert db. induction rs1 as [|r rs1 IH]; intros db; simpl; [done|].
  apply IH.
Qed.

Lemma reachable_serve db :
  reachable db ↔ ∃ rs, db = (serve rs empty_database).1.
Proof.
  split.
  - induction 1 as [|db r _ [rs ->]].
    + by exists [].
    + exists (rs ++ [r])%list. by rewrite serve_app.
  - intros [rs ->]. induction rs as [|r rs IH] using rev_ind.
    + apply reachable_empty.
    + rewrite serve_app. simpl. by apply reachable_step.
Qed.

(** ** Invariants of the tables *)

Lemma dispatch_fk_valid r db : fk_valid db → fk_valid (dispatch r db).1.
Proof.
  intros Hfk.
  destruct (dispatch_cases r db)
    as [[Hdb _]|(request & _ & _ &
        [(k & n & c & Hc & Hq & Hk & Hd)|[(q & Hd)|(k & t & Hq & _ & Hd)]])].
  - by rewrite Hdb.
  - rewrite Hd. intros m c0. simpl. intros Hc0.
    destruct (decide (m = n)) as [->|Hm].
    + rewrite lookup_insert_eq in Hc0. injection Hc0 as <-. done.
    + rewrite lookup_insert_ne in Hc0 by done. by apply (Hfk m).
  - rewrite Hd. intros m c0. simpl. intros Hc0.
    destruct (Hfk m c0 Hc0) as [q0 Hq0]. exists q0.
    rewrite lookup_insert_ne; [done|].
    intros Heq. rewrite <-Heq in Hq0. by rewrite next_pk_fresh in Hq0.
  - rewrite Hd. intros m c0. simpl. intros Hc0.
    destruct (decide (m = next_pk (Choice_objects db))) as [->|Hm].
    + rewrite lookup_insert_eq in Hc0. injection Hc0 as <-. done.
    + rewrite lookup_insert_ne in Hc0 by done. by apply (Hfk m).
Qed.

Lemma dispatch_votes_nonneg r db :
  votes_nonneg db → votes_nonneg (dispatch r db).1.
Proof.
  intros Hv.
  destruct (dispatch_cases r db)
    as [[Hdb _]|(request & _ & _ &
        [(k & n & c & Hc & _ & _ & Hd)|[(q & Hd)|(k & t & _ & _ & Hd)]])].
  - by rewrite Hdb.
  - rewrite Hd. intros m c0. simpl. intros Hc0.
    destruct (decide (m = n)) as [->|Hm].
    + rewrite lookup_insert_eq in Hc0. injection Hc0 as <-. simpl.
      specialize (Hv n c Hc). lia.
    + rewrite lookup_insert_ne in Hc0 by done. by apply (Hv m).
  - rewrite Hd. intros m c0. simpl. by apply Hv.
  - rewrite Hd. intros m c0. simpl. intros Hc0.
    destruct (decide (m = next_pk (Choice_objects db))) as [->|Hm].
    + rewrite lookup_insert_eq in Hc0. by injection Hc0 as <-.
    + rewrite lookup_insert_ne in Hc0 by done. by apply (Hv m).
Qed.

(** X7: the handlers keep the Choices attached: when every Choice
    belongs to a stored Question, so it is after any run of requests;
    in particular in every database the handlers produce from the empty
    one. *)
Theorem choices_stay_attached :
  (∀ rs db, fk_valid db → fk_valid (serve rs db).1)
  ∧ (∀ db, reachable db → fk_valid db).
Proof.
  assert (Hs : ∀ rs db, fk_valid db → fk_valid (serve rs db).1).
  { induction rs as [|r rs IH]; intros db Hdb; simpl; [done|].
    by apply IH, dispatch_fk_valid. }
  split; [done|]. intros db [rs ->]%reachable_serve. apply Hs.
  intros n c Hc. simpl in Hc. by rewrite lookup_empty in Hc.
Qed.

(** X8: votes are never negative: a Choice is created with 0 votes and
    a vote only adds 1, so a database without negative counts has none
    after any run of requests, as has every database the handlers
    produce from the empty one. *)
Theorem votes_stay_nonnegative :
  (∀ rs db, votes_nonneg db → votes_nonneg (serve rs db).1)
  ∧ (∀ db, reachable db → votes_nonneg db).
Proof.
  assert (Hs : ∀ rs db, votes_nonneg db → votes_nonneg (serve rs db).1).
  { induction rs as [|r rs IH]; intros db Hdb; simpl; [done|].
    by apply IH, dispatch_votes_nonneg. }
  split; [done|]. intros db [rs ->]%reachable_serve. apply Hs.
  intros n c Hc. simpl in Hc. by rewrite lookup_empty in Hc.
Qed.

(** ** Every counted vote is one redirect *)

Lemma sum_votes_insert_fresh (m : gmap Z Choice) i c :
  m !! i = None →
  map_fold (λ _ c acc, votes c + acc) 0 (<[i:=c]> m)
  = votes c + map_fold (λ _ c acc, votes c + acc) 0 m.
Proof.
  intros Hi. rewrite map_fold_insert_L; [done| |done].
  intros. lia.
Qed.

Lemma sum_votes_insert_same (m : gmap Z Choice) i c c' :
  m !! i = Some c →
  map_fold (λ _ c acc, votes c + acc) 0 (<[i:=c']> m)
  = votes c' - votes c + map_fold (λ _ c acc, votes c + acc) 0 m.
Proof.
  intros Hi. rewrite <-insert_delete_eq.
  rewrite sum_votes_insert_fresh by apply lookup_delete_eq.
  rewrite (map_fold_delete_L _ _ i c m); [lia| |done].
  intros. lia.
Qed.

Lemma dispatch_total_votes r db :
  total_votes (dispatch r db).1 =
    total_votes db + (if is_results_redirect (dispatch r db).2 then 1 else 0).
Proof.
  destruct (dispatch_cases r db)
    as [[Hdb Hred]|(request & _ & _ &
        [(k & n & c & Hc & _ & _ & Hd)|[(q & Hd)|(k & t & _ & _ & Hd)]])].
  - rewrite Hdb.
    assert (is_results_redirect (dispatch r db).2 = false) as ->; [|lia].
    destruct (dispatch r db).2 as [[| [] ]|]; done.
  - rewrite Hd. unfold total_votes. simpl.
    rewrite (sum_votes_insert_same _ _ c) by done. simpl. lia.
  - rewrite Hd. unfold total_votes. simpl. lia.
  - rewrite Hd. unfold total_votes. simpl.
    rewrite sum_votes_insert_fresh by apply next_pk_fresh. simpl. lia.
Qed.

(** X9: over any run of requests the votes recorded in the database
    grow by exactly the number of requests answered with the redirect to
    a results view: every such redirect is one vote counted, and nothing
    else changes a count. *)
Theorem votes_match_redirects rs db :
  total_votes (serve rs db).1 = total_votes db + counted_votes (serve rs db).2.
Proof.
  revert db. induction rs as [|r rs IH]; intros db; simpl; [lia|].
  rewrite IH, dispatch_total_votes. lia.
Qed.

(** ** Votes one after the other *)

Lemma not_blank t : strip t ≠ EmptyString → blank t = false.
Proof.
  intros Hs. destruct (blank t) eqn:Hb; [|done]. by apply strip_empty in Hb.
Qed.

(** X10: [n] votes for the same Choice, handled one after the other,
    are all answered with the redirect and add [n] to its votes. *)
Theorem repeated_votes_add_up n db request k q v m c :
  Question_objects db !! k = Some q →
  POST request !! "choice" = Some v → int v = Some m →
  Choice_objects db !! m = Some c → question_id c = k →
  votes_of (serve (replicate n (route_vote request k)) db).1 m
    = votes c + Z.of_nat n
  ∧ (serve (replicate n (route_vote request k)) db).2
    = replicate n (Return (HttpResponseRedirect (polls_results k))).
Proof.
  intros Hq Hv Hm. revert db c Hq.
  induction n as [|n IH]; intros db c Hq Hc Hk.
  - simpl. unfold votes_of. rewrite Hc. split; [lia|done].
  - cbn [replicate serve dispatch].
    rewrite (vote_valid db request k q v m c) by done. cbn [fst snd].
    set (db1 := mkDatabase _ _).
    destruct (IH db1 (mkChoice k (choice_text c) (votes c + 1))) as [IH1 IH2];
      [done|apply lookup_insert_eq|done|].
    rewrite IH1, IH2. simpl. split; [lia|done].
Qed.

(** ** A created question *)

(** X11: a Question made by [create] at time [now] is served by the
    detail view, with the raw text, at every clock reading from [now]
    on, and is [Http404] there at any earlier reading; the listing of a
    database with at most 5 published Questions shows it from [now]
    on. *)
Theorem created_question_is_served now now' db request t :
  POST request !! "new_question" = Some t → strip t ≠ EmptyString →
  ∃ k, Question_objects db !! k = None
     ∧ (now ≤ now' →
        DetailView now' k (create now request db).1 =
          ((create now request db).1,
           Return (render "polls/detail.html"
                     {[ "question" :=
                          CtxQuestion (mkInstance k (mkQuestion t now)) ]})))
     ∧ (now' < now →
        DetailView now' k (create now request db).1 =
          ((create now request db).1, Raise Http404))
     ∧ (now ≤ now' →
        (published_count now' (create now request db).1 ≤ 5)%nat →
        ∃ l, IndexView_get_queryset now' (create now request db).1 =
               ((create now request db).1, Return l)
           ∧ mkInstance k (mkQuestion t now) ∈ l).
Proof.
  intros Ht Hs. exists (next_pk (Question_objects db)).
  split; [apply next_pk_fresh|].
  rewrite (create_saves now db request t) by (done || by apply not_blank).
  cbn [fst]. set (db' := mkDatabase _ _).
  assert (Hk : Question_objects db' !! next_pk (Question_objects db)
               = Some (mkQuestion t now)) by apply lookup_insert_eq.
  split; [|split].
  - intros Hle. rewrite DetailView_run, Hk. simpl. by rewrite decide_True.
  - intros Hlt. by apply (DetailView_unpublished _ _ _ (mkQuestion t now)).
  - intros Hle Hn. eexists. split; [apply IndexView_get_queryset_run|].
    by apply listing_all_when_few.
Qed.

(** X12: [create] has no check for an existing text: a request with a
    text that is not blank adds exactly 1 to the number of Questions with
    that text, whatever that number was, and leaves the number for every
    other text as it was. *)
Theorem create_allows_duplicates now db request t :
  POST request !! "new_question" = Some t → strip t ≠ EmptyString →
  size (filter_question_text t (Question_objects (create now request db).1))
    = S (size (filter_question_text t (Question_objects db)))
  ∧ ∀ t', t' ≠ t →
      size (filter_question_text t' (Question_objects (create now request db).1))
      = size (filter_question_text t' (Question_objects db)).
Proof.
  intros Ht Hs.
  rewrite (create_saves now db request t) by (done || by apply not_blank).
  cbn [fst Question_objects]. unfold filter_question_text. split.
  - rewrite size_filter_insert_fresh by apply next_pk_fresh.
    by rewrite decide_True.
  - intros t' Hne. rewrite size_filter_insert_fresh by apply next_pk_fresh.
    rewrite decide_False; [done|]. simpl. congruence.
Qed.

Lemma choice_set_empty db k :
  fk_valid db → Question_objects db !! k = None → choice_set db k = ∅.
Proof.
  intros Hfk Hk. apply map_empty. intros n.
  apply choice_set_lookup_None. intros c Hc Heq.
  destruct (Hfk n c Hc) as [q Hq]. congruence.
Qed.

(** X13: in a database whose Choices all belong to stored Questions, a
    Question made by [create] starts without any Choice, and the counts
    of the other Questions are as before. *)
Theorem created_question_has_no_choice now db request t :
  fk_valid db →
  POST request !! "new_question" = Some t → strip t ≠ EmptyString →
  ∃ k, Question_objects db !! k = None
     ∧ Question_objects (create now request db).1 !! k
       = Some (mkQuestion t now)
     ∧ answer_count (create now request db).1
         (mkInstance k (mkQuestion t now)) = 0
     ∧ ∀ question,
         answer_count (create now request db).1 question
         = answer_count db question.
Proof.
  intros Hfk Ht Hs. exists (next_pk (Question_objects db)).
  pose proof (next_pk_fresh (Question_objects db)) as Hk.
  split; [done|].
  rewrite (create_saves now db request t) by (done || by apply not_blank).
  cbn [fst]. split; [apply lookup_insert_eq|].
  assert (Hsame : ∀ question,
    answer_count (mkDatabase
        (<[next_pk (Question_objects db) := mkQuestion t now]>
           (Question_objects db)) (Choice_objects db)) question
    = answer_count db question) by done.
  split; [|done]. rewrite Hsame. unfold answer_count. simpl.
  by rewrite (choice_set_empty db _ Hfk Hk), map_size_empty.
Qed.

(** ** An added choice *)

Lemma create_answer_step db request k q t :
  Question_objects db !! k = Some q →
  answer_count db (mkInstance k q) < 3 →
  POST request !! "new_answer" = Some t → strip t ≠ EmptyString →
  dispatch (route_create_answer request k) db =
    (mkDatabase (Question_objects db)
       (<[next_pk (Choice_objects db) := mkChoice k t 0]> (Choice_objects db)),
     Return (HttpResponseRedirect (polls_detail k)))
  ∧ ∀ question,
      answer_count (dispatch (route_create_answer request k) db).1 question
      = if decide (k = pk question)
        then answer_count db question + 1 else answer_count db question.
Proof.
  intros Hq Hn Ht Hs. unfold dispatch.
  rewrite (create_answer_adds db request k q t) by (done || by apply not_blank).
  split; [done|]. intros question. cbn [fst]. by rewrite answer_count_insert.
Qed.

(** X14: a posted answer that is not blank, for a Question with fewer
    than 3 Choices, inserts one Choice under a key the table did not
    have, owned by the Question, with the raw text and 0 votes; the
    Question then has one Choice more, every other Question as many as
    before, and no stored row is touched. *)
Theorem create_answer_adds_one db request k q t :
  Question_objects db !! k = Some q →
  answer_count db (mkInstance k q) < 3 →
  POST request !! "new_answer" = Some t → strip t ≠ EmptyString →
  ∃ n db',
    create_answer request k db =
      (db', Return (HttpResponseRedirect (polls_detail k)))
    ∧ Choice_objects db !! n = None
    ∧ Choice_objects db' = <[n := mkChoice k t 0]> (Choice_objects db)
    ∧ Question_objects db' = Question_objects db
    ∧ answer_count db' (mkInstance k q) = answer_count db (mkInstance k q) + 1
    ∧ ∀ question, pk question ≠ k →
        answer_count db' question = answer_count db question.
Proof.
  intros Hq Hn Ht Hs.
  destruct (create_answer_step db request k q t Hq Hn Ht Hs) as [Hd Hcount].
  unfold dispatch in Hd, Hcount.
  exists (next_pk (Choice_objects db)). eexists. split; [exact Hd|].
  rewrite Hd in Hcount. cbn [fst] in Hcount.
  split; [apply next_pk_fresh|]. split; [done|]. split; [done|]. split.
  - rewrite Hcount. by rewrite decide_True.
  - intros question Hne. rewrite Hcount. by rewrite decide_False.
Qed.

(** X15: a Choice added by [create_answer] can be voted for at once: a
    vote whose value is the new id is answered with the redirect and the
    Choice then has 1 vote. *)
Theorem added_choice_can_be_voted db request request' k q t v :
  Question_objects db !! k = Some q →
  answer_count db (mkInstance k q) < 3 →
  POST request !! "new_answer" = Some t → strip t ≠ EmptyString →
  POST request' !! "choice" = Some v →
  int v = Some (next_pk (Choice_objects db)) →
  (serve [route_create_answer request k; route_vote request' k] db).2
    = [Return (HttpResponseRedirect (polls_detail k));
       Return (HttpResponseRedirect (polls_results k))]
  ∧ Choice_objects
      (serve [route_create_answer request k; route_vote request' k] db).1
      !! next_pk (Choice_objects db) = Some (mkChoice k t 1).
Proof.
  intros Hq Hn Ht Hs Hv Hint. cbn [serve].
  destruct (create_answer_step db request k q t Hq Hn Ht Hs) as [-> _].
  cbn [fst snd dispatch].
  rewrite (vote_valid _ request' k q v (next_pk (Choice_objects db))
             (mkChoice k t 0)); [|done..|apply lookup_insert_eq|done].
  cbn [fst snd Choice_objects choice_text votes].
  split; [done|]. by rewrite lookup_insert_eq.
Qed.

(** X16: a Question without Choices takes exactly three answers: three
    posted answers that are not blank are each answered with the
    redirect, and a fourth request, whatever it is, gets the detail view
    with the message "You can't add moore than 3 answers." while the
    Question keeps 3 Choices. *)
Theorem fourth_answer_is_refused db k q r1 r2 r3 r4 t1 t2 t3 :
  Question_objects db !! k = Some q →
  answer_count db (mkInstance k q) = 0 →
  POST r1 !! "new_answer" = Some t1 → strip t1 ≠ EmptyString →
  POST r2 !! "new_answer" = Some t2 → strip t2 ≠ EmptyString →
  POST r3 !! "new_answer" = Some t3 → strip t3 ≠ EmptyString →
  (serve [route_create_answer r1 k; route_create_answer r2 k;
          route_create_answer r3 k; route_create_answer r4 k] db).2
    = [Return (HttpResponseRedirect (polls_detail k));
       Return (HttpResponseRedirect (polls_detail k));
       Return (HttpResponseRedirect (polls_detail k));
       Return (render "polls/detail.html"
                 {[ "message_too_much" :=
                      CtxStr "You can't add moore than 3 answers.";
                    "question" := CtxQuestion (mkInstance k q) ]})]
  ∧ answer_count
      (serve [route_create_answer r1 k; route_create_answer r2 k;
              route_create_answer r3 k; route_create_answer r4 k] db).1
      (mkInstance k q) = 3.
Proof.
  intros Hq H0 Ht1 Hs1 Ht2 Hs2 Ht3 Hs3. cbn [serve].
  destruct (create_answer_step db r1 k q t1 Hq ltac:(lia) Ht1 Hs1) as [Hd1 Hc1].
  set (db1 := (dispatch (route_create_answer r1 k) db).1) in *.
  assert (Hq1 : Question_objects db1 !! k = Some q)
    by (unfold db1; by rewrite Hd1).
  assert (Hn1 : answer_count db1 (mkInstance k q) = 1)
    by (rewrite Hc1, decide_True by done; lia).
  destruct (create_answer_step db1 r2 k q t2 Hq1 ltac:(lia) Ht2 Hs2)
    as [Hd2 Hc2].
  set (db2 := (dispatch (route_create_answer r2 k) db1).1) in *.
  assert (Hq2 : Question_objects db2 !! k = Some q)
    by (unfold db2; by rewrite Hd2).
  assert (Hn2 : answer_count db2 (mkInstance k q) = 2)
    by (rewrite Hc2, decide_True by done; lia).
  destruct (create_answer_step db2 r3 k q t3 Hq2 ltac:(lia) Ht3 Hs3)
    as [Hd3 Hc3].
  set (db3 := (dispatch (route_create_answer r3 k) db2).1) in *.
  assert (Hq3 : Question_objects db3 !! k = Some q)
    by (unfold db3; by rewrite Hd3).
  assert (Hn3 : answer_count db3 (mkInstance k q) = 3)
    by (rewrite Hc3, decide_True by done; lia).
  assert (Hd4 : dispatch (route_create_answer r4 k) db3 =
    (db3, Return (render "polls/detail.html"
                    {[ "message_too_much" :=
                         CtxStr "You can't add moore than 3 answers.";
                       "question" := CtxQuestion (mkInstance k q) ]}))).
  { unfold dispatch. apply create_answer_full; [done|lia]. }
  rewrite Hd4. cbn [fst snd]. split; [|done].
  by rewrite Hd1, Hd2, Hd3.
Qed.

(** ** Exceptions of the creating handlers *)

(** X17: [create_answer] raises [Http404] exactly for an unknown
    question id; the only other exception is the [KeyError] of a POST
    without the field [new_answer] for a Question below 3 Choices. *)
Theorem create_answer_outcomes request k db :
  ((create_answer request k db).2 = Raise Http404 ↔
     Question_objects db !! k = None)
  ∧ (∀ e, (create_answer request k db).2 = Raise e →
       e = Http404 ∨ e = KeyError "new_answer")
  ∧ ((create_answer request k db).2 = Raise (KeyError "new_answer") ↔
       ∃ q, Question_objects db !! k = Some q
          ∧ answer_count db (mkInstance k q) < 3
          ∧ method request = "POST"
          ∧ POST request !! "new_answer" = None).
Proof.
  destruct (create_answer_cases request k db)
    as [[Hq ->]|(q & Hq & [[Hn ->]|[(Hn & Hm & ->)|[(Hn & Hm & Ht & ->)
        |[(t & Hn & Ht & Hb & ->)|(t & Hn & Ht & Hb & ->)]]]])]; simpl.
  all: repeat split; try done; try congruence.
  all: try (intros e [= <-]; by auto).
  all: try (intros (q' & Hq' & _); congruence).
  - intros (q' & Hq' & Hn' & _). assert (q' = q) as -> by congruence. lia.
  - intros (q' & _ & _ & Hm' & _). congruence.
  - intros _. by exists q.
  - intros (q' & _ & _ & _ & Ht'). congruence.
  - intros (q' & _ & _ & _ & Ht'). congruence.
Qed.

(** X18: [create] looks up no Question, so it never raises [Http404];
    its only exception is the [KeyError] of a POST without the field
    [new_question], and a request with any other method always gets the
    empty creation form. *)
Theorem create_outcomes now request db :
  (∀ e, (create now request db).2 = Raise e → e = KeyError "new_question")
  ∧ ((create now request db).2 = Raise (KeyError "new_question") ↔
       method request = "POST" ∧ POST request !! "new_question" = None)
  ∧ (method request ≠ "POST" →
       create now request db = (db, Return (render "polls/create.html" ∅))).
Proof.
  destruct (create_cases now request db)
    as [[Hm Hd]|[(Hm & Ht & Hd)|[(t & Ht & Hb & Hd)|(t & Ht & Hb & Hd)]]];
    rewrite Hd; simpl.
  all: repeat split; try done; try congruence.
  all: try (intros e [= <-]; done).
  all: try (intros [Hm' Ht']; congruence).
  all: try (intros Hm'; destruct (POST_Some _ _ _ Ht); congruence).
  all: try (intros [Hm' _]; congruence).
Qed.

(** ** Where the pages lead *)

(** X19: every Question of the listing is served by the detail view at
    the same clock reading: a link of the index page does not end in
    [Http404]. *)
Theorem listed_questions_have_detail now db l a :
  IndexView_get_queryset now db = (db, Return l) → a ∈ l →
  DetailView now (pk a) db =
    (db, Return (render "polls/detail.html" {[ "question" := CtxQuestion a ]})).
Proof.
  intros Hl Ha. rewrite IndexView_get_queryset_run in Hl.
  injection Hl as <-. destruct (listing_elem now db a Ha) as [Hq Hle].
  rewrite DetailView_run, Hq. rewrite decide_True by done. by destruct a.
Qed.

(** X20: the redirect of a counted vote leads to a page: the results
    view of the question renders, with the database as the vote left it.
    The redirect of [create_answer] leads to the detail view, which
    renders exactly when the Question is published and is [Http404] for a
    Question whose publish timestamp is still ahead. *)
Theorem redirects_resolve now db request k :
  ((vote request k db).2 = Return (HttpResponseRedirect (polls_results k)) →
   ∃ q, Question_objects db !! k = Some q
      ∧ ResultsView k (vote request k db).1 =
          ((vote request k db).1,
           Return (render "polls/results.html"
                     {[ "question" := CtxQuestion (mkInstance k q) ]})))
  ∧ ((create_answer request k db).2
       = Return (HttpResponseRedirect (polls_detail k)) →
     ∃ q, Question_objects db !! k = Some q
        ∧ DetailView now k (create_answer request k db).1 =
            ((create_answer request k db).1,
             if decide (pub_date q ≤ now)
             then Return (render "polls/detail.html"
                            {[ "question" := CtxQuestion (mkInstance k q) ]})
             else Raise Http404)).
Proof.
  split.
  - destruct (vote_cases request k db)
      as [[Hq ->]|[(q & Hq & Hsel & ->)|[(q & v & Hq & Hv & Hn & ->)
          |(q & v & n & c & Hq & Hv & Hn & Hc & Hk & ->)]]]; try done.
    intros _. exists q. split; [done|]. cbn [fst].
    rewrite ResultsView_run. cbn [Question_objects]. by rewrite Hq.
  - destruct (create_answer_cases request k db)
      as [[Hq ->]|(q & Hq & [[Hn ->]|[(Hn & Hm & ->)|[(Hn & Hm & Ht & ->)
          |[(t & Hn & Ht & Hb & ->)|(t & Hn & Ht & Hb & ->)]]]])]; try done.
    intros _. exists q. split; [done|]. cbn [fst].
    rewrite DetailView_run. cbn [Question_objects]. rewrite Hq.
    by case_decide.
Qed.

(** ** The further properties at the data of [tests.py] *)

Lemma results_ignore_publication_witness :
  DetailView 50 1 test_vote_db = (test_vote_db, Raise Http404)
  ∧ ResultsView 1 test_vote_db =
      (test_vote_db,
       Return (render "polls/results.html"
                 {[ "question" :=
                      CtxQuestion (mkInstance 1 (mkQuestion "How are you?" 100)) ]})).
Proof.
  apply (proj2 (results_ignore_publication test_vote_db 1) 50
           (mkQuestion "How are you?" 100)); [reflexivity|simpl; lia].
Defined.

Lemma index_listing_most_recent_witness :
  ∃ l, IndexView_get_queryset 200 test_vote_db = (test_vote_db, Return l)
     ∧ length l = 1%nat
     ∧ mkInstance 1 (mkQuestion "How are you?" 100) ∈ l.
Proof.
  destruct (index_listing_most_recent 200 test_vote_db)
    as (l & Hl & Hlen & _ & _ & Hall).
  exists l. split; [exact Hl|]. split; [exact Hlen|].
  apply Hall; [vm_compute; lia|reflexivity|simpl; lia].
Defined.

Lemma vote_outcomes_witness :
  (vote (post "choice" "abc") 1 test_vote_db).2 = Raise ValueError
  ∧ (vote (post "choice" "1") 7 test_vote_db).2 = Raise Http404.
Proof.
  split.
  - apply (proj1 (proj2 (vote_outcomes (post "choice" "abc") 1 test_vote_db))).
    split; [eexists; reflexivity|]. exists "abc". split; reflexivity.
  - apply (proj1 (vote_outcomes (post "choice" "1") 7 test_vote_db)).
    reflexivity.
Defined.

Lemma mutation_iff_redirect_witness :
  (dispatch (route_vote (post "choice" "1") 1) test_vote_db).1 ≠ test_vote_db.
Proof.
  apply (proj2 (mutation_iff_redirect (route_vote (post "choice" "1") 1)
                  test_vote_db)).
  reflexivity.
Defined.

Lemma only_post_mutates_witness :
  (dispatch (route_vote (post "choice" "1") 1) test_vote_db).1 ≠ test_vote_db
  ∧ ∃ request,
      route_request (route_vote (post "choice" "1") 1) = Some request
      ∧ method request = "POST".
Proof.
  assert (Hne : (dispatch (route_vote (post "choice" "1") 1) test_vote_db).1
                ≠ test_vote_db).
  { intros Heq. apply (f_equal (λ db, votes_of db 1)) in Heq.
    vm_compute in Heq. discriminate Heq. }
  split; [exact Hne|].
  exact (only_post_mutates (route_vote (post "choice" "1") 1) test_vote_db Hne).
Defined.

Lemma serve_keeps_rows_witness :
  Question_objects
    (serve [route_vote (post "choice" "1") 1] test_vote_db).1 !! 1
    = Some (mkQuestion "How are you?" 100)
  ∧ ∃ c', Choice_objects
            (serve [route_vote (post "choice" "1") 1] test_vote_db).1 !! 1
          = Some c'
        ∧ question_id c' = 1 ∧ choice_text c' = "Fine" ∧ 0 ≤ votes c'.
Proof.
  destruct (serve_keeps_rows [route_vote (post "choice" "1") 1] test_vote_db)
    as [Hq Hc].
  split.
  - apply Hq. reflexivity.
  - apply (Hc 1 (mkChoice 1 "Fine" 0)). reflexivity.
Defined.

Lemma choices_stay_attached_witness :
  fk_valid (serve [route_create 100 (post "new_question" "How are you?")]
              empty_database).1
  ∧ fk_valid three_answers_db.
Proof.
  split.
  - apply (proj1 choices_stay_attached).
    intros n c Hc. vm_compute in Hc. discriminate Hc.
  - exact (proj2 choices_stay_attached _ three_answers_db_reachable).
Defined.

Lemma votes_stay_nonnegative_witness :
  votes_nonneg (serve [route_create 100 (post "new_question" "How are you?")]
                  empty_database).1
  ∧ votes_nonneg three_answers_db.
Proof.
  split.
  - apply (proj1 votes_stay_nonnegative).
    intros n c Hc. vm_compute in Hc. discriminate Hc.
  - exact (proj2 votes_stay_nonnegative _ three_answers_db_reachable).
Defined.

Lemma repeated_votes_add_up_witness :
  votes_of (serve (replicate 3 (route_vote (post "choice" "1") 1))
              test_vote_db).1 1 = 0 + Z.of_nat 3
  ∧ (serve (replicate 3 (route_vote (post "choice" "1") 1)) test_vote_db).2
    = replicate 3 (Return (HttpResponseRedirect (polls_results 1))).
Proof.
  apply (repeated_votes_add_up 3 test_vote_db (post "choice" "1") 1
           (mkQuestion "How are you?" 100) "1" 1 (mkChoice 1 "Fine" 0));
    reflexivity.
Defined.

Lemma created_question_is_served_witness :
  ∃ k, Question_objects empty_database !! k = None
     ∧ DetailView 150 k
         (create 100 (post "new_question" "How are you?") empty_database).1 =
         ((create 100 (post "new_question" "How are you?") empty_database).1,
          Return (render "polls/detail.html"
                    {[ "question" :=
                         CtxQuestion
                           (mkInstance k (mkQuestion "How are you?" 100)) ]})).
Proof.
  destruct (created_question_is_served 100 150 empty_database
              (post "new_question" "How are you?") "How are you?")
    as (k & Hk & Hserved & _); [reflexivity|vm_compute; discriminate|].
  exists k. split; [exact Hk|]. apply Hserved. lia.
Defined.

Lemma create_allows_duplicates_witness :
  let db := (create 100 (post "new_question" "How are you?")
               empty_database).1 in
  size (filter_question_text "How are you?"
          (Question_objects
             (create 200 (post "new_question" "How are you?") db).1))
  = S (size (filter_question_text "How are you?" (Question_objects db))).
Proof.
  intros db.
  apply (create_allows_duplicates 200 db (post "new_question" "How are you?")
           "How are you?"); [reflexivity|vm_compute; discriminate].
Defined.

Lemma test_vote_db_fk_valid : fk_valid test_vote_db.
Proof.
  intros n c Hc. unfold test_vote_db in Hc. simpl in Hc.
  apply lookup_insert_Some in Hc as [[<- <-]|[_ Hc]]; [by eexists|].
  apply lookup_singleton_Some in Hc as [<- <-]. by eexists.
Qed.

Lemma created_question_has_no_choice_witness :
  ∃ k, Question_objects test_vote_db !! k = None
     ∧ answer_count
         (create 200 (post "new_question" "And you?") test_vote_db).1
         (mkInstance k (mkQuestion "And you?" 200)) = 0.
Proof.
  destruct (created_question_has_no_choice 200 test_vote_db
              (post "new_question" "And you?") "And you?")
    as (k & Hk & _ & Hn & _).
  - exact test_vote_db_fk_valid.
  - reflexivity.
  - vm_compute. discriminate.
  - exists k. exact (conj Hk Hn).
Defined.

Lemma create_answer_adds_one_witness :
  ∃ n db',
    create_answer (post "new_answer" "some answer") 1 test_vote_db =
      (db', Return (HttpResponseRedirect (polls_detail 1)))
    ∧ Choice_objects test_vote_db !! n = None
    ∧ Choice_objects db'
      = <[n := mkChoice 1 "some answer" 0]> (Choice_objects test_vote_db)
    ∧ answer_count db' (mkInstance 1 (mkQuestion "How are you?" 100)) =
        answer_count test_vote_db
          (mkInstance 1 (mkQuestion "How are you?" 100)) + 1.
Proof.
  destruct (create_answer_adds_one test_vote_db
              (post "new_answer" "some answer") 1
              (mkQuestion "How are you?" 100) "some answer")
    as (n & db' & Hd & Hn & Hc & _ & Hcount & _).
  - reflexivity.
  - vm_compute. reflexivity.
  - reflexivity.
  - vm_compute. discriminate.
  - exists n, db'. exact (conj Hd (conj Hn (conj Hc Hcount))).
Defined.

Lemma added_choice_can_be_voted_witness :
  (serve [route_create_answer (post "new_answer" "some answer") 1;
          route_vote (post "choice" "3") 1] test_vote_db).2
    = [Return (HttpResponseRedirect (polls_detail 1));
       Return (HttpResponseRedirect (polls_results 1))]
  ∧ Choice_objects
      (serve [route_create_answer (post "new_answer" "some answer") 1;
              route_vote (post "choice" "3") 1] test_vote_db).1
      !! next_pk (Choice_objects test_vote_db)
    = Some (mkChoice 1 "some answer" 1).
Proof.
  apply (added_choice_can_be_voted test_vote_db
           (post "new_answer" "some answer") (post "choice" "3") 1
           (mkQuestion "How are you?" 100) "some answer" "3").
  - reflexivity.
  - vm_compute. reflexivity.
  - reflexivity.
  - vm_compute. discriminate.
  - reflexivity.
  - vm_compute. reflexivity.
Defined.

Lemma fourth_answer_is_refused_witness :
  let db := (create 100 (post "new_question" "How are you?")
               empty_database).1 in
  answer_count
    (serve [route_create_answer (post "new_answer" "First answer") 1;
            route_create_answer (post "new_answer" "Second answer") 1;
            route_create_answer (post "new_answer" "Third answer") 1;
            route_create_answer (post "new_answer" "Forth answer") 1] db).1
    (mkInstance 1 (mkQuestion "How are you?" 100)) = 3.
Proof.
  intros db.
  apply (fourth_answer_is_refused db 1 (mkQuestion "How are you?" 100)
           (post "new_answer" "First answer")
           (post "new_answer" "Second answer")
           (post "new_answer" "Third answer")
           (post "new_answer" "Forth answer")
           "First answer" "Second answer" "Third answer").
  - vm_compute. reflexivity.
  - vm_compute. reflexivity.
  - reflexivity.
  - vm_compute. discriminate.
  - reflexivity.
  - vm_compute. discriminate.
  - reflexivity.
  - vm_compute. discriminate.
Defined.

Lemma create_answer_outcomes_witness :
  (create_answer (mkRequest "POST" ∅) 1 test_vote_db).2
    = Raise (KeyError "new_answer")
  ∧ (create_answer (post "new_answer" "some answer") 7 test_vote_db).2
    = Raise Http404.
Proof.
  split.
  - apply (proj2 (proj2 (create_answer_outcomes (mkRequest "POST" ∅) 1
                           test_vote_db))).
    exists (mkQuestion "How are you?" 100).
    split; [reflexivity|]. split; [vm_compute; reflexivity|].
    split; reflexivity.
  - apply (proj1 (create_answer_outcomes (post "new_answer" "some answer") 7
                    test_vote_db)).
    reflexivity.
Defined.

Lemma create_outcomes_witness :
  (create 100 (mkRequest "POST" ∅) empty_database).2
    = Raise (KeyError "new_question")
  ∧ create 100 (mkRequest "GET" ∅) empty_database
    = (empty_database, Return (render "polls/create.html" ∅)).
Proof.
  split.
  - apply (proj1 (proj2 (create_outcomes 100 (mkRequest "POST" ∅)
                           empty_database))).
    split; reflexivity.
  - apply (proj2 (proj2 (create_outcomes 100 (mkRequest "GET" ∅)
                           empty_database))).
    simpl. discriminate.
Defined.

Lemma listed_questions_have_detail_witness :
  DetailView 200 1 test_vote_db =
    (test_vote_db,
     Return (render "polls/detail.html"
               {[ "question" :=
                    CtxQuestion (mkInstance 1 (mkQuestion "How are you?" 100)) ]})).
Proof.
  apply (listed_questions_have_detail 200 test_vote_db
           [mkInstance 1 (mkQuestion "How are you?" 100)]
           (mkInstance 1 (mkQuestion "How are you?" 100))).
  - vm_compute. reflexivity.
  - apply list_elem_of_here.
Defined.

Lemma redirects_resolve_witness :
  ∃ q, Question_objects test_vote_db !! 1 = Some q
     ∧ ResultsView 1 (vote (post "choice" "1") 1 test_vote_db).1 =
         ((vote (post "choice" "1") 1 test_vote_db).1,
          Return (render "polls/results.html"
                    {[ "question" := CtxQuestion (mkInstance 1 q) ]})).
Proof.
  apply (proj1 (redirects_resolve 50 test_vote_db (post "choice" "1") 1)).
  reflexivity.
Defined.

(** ** Questions scheduled by the tests *)

(** X21: a Question made by [create_question] with an offset of [days]
    days is stored under a key the table did not have; until its publish
    time the detail view raises [Http404] for it and the listing does not
    show it, and from its publish time on the detail view serves it. *)
Theorem scheduled_question_visibility text days now now' db :
  ∃ k, Question_objects db !! k = None
     ∧ (create_question text days now db).2
       = Return (mkInstance k (mkQuestion text (now + 86400 * days)))
     ∧ Question_objects (create_question text days now db).1 !! k
       = Some (mkQuestion text (now + 86400 * days))
     ∧ (now' < now + 86400 * days →
        DetailView now' k (create_question text days now db).1
          = ((create_question text days now db).1, Raise Http404)
        ∧ ∀ l a, IndexView_get_queryset now'
                   (create_question text days now db).1
                 = ((create_question text days now db).1, Return l) →
                 a ∈ l → pk a ≠ k)
     ∧ (now + 86400 * days ≤ now' →
        DetailView now' k (create_question text days now db).1
          = ((create_question text days now db).1,
             Return (render "polls/detail.html"
                       {[ "question" :=
                            CtxQuestion
                              (mkInstance k
                                 (mkQuestion text (now + 86400 * days))) ]}))).
Proof.
  exists (next_pk (Question_objects db)).
  split; [apply next_pk_fresh|]. split; [reflexivity|].
  assert (Hrun : (create_question text days now db).1 =
    mkDatabase (<[next_pk (Question_objects db) :=
                    mkQuestion text (now + 86400 * days)]>
                  (Question_objects db)) (Choice_objects db)) by reflexivity.
  rewrite Hrun. set (db' := mkDatabase _ _).
  assert (Hk : Question_objects db' !! next_pk (Question_objects db)
               = Some (mkQuestion text (now + 86400 * days)))
    by apply lookup_insert_eq.
  split; [done|]. split.
  - intros Hlt. split.
    + by apply (DetailView_unpublished _ _ _ _ Hk).
    + intros l a Hl Ha Heq. rewrite IndexView_get_queryset_run in Hl.
      injection Hl as <-. destruct (listing_elem now' db' a Ha) as [Hq Hle].
      rewrite Heq, Hk in Hq. injection Hq as Hq. rewrite <-Hq in Hle.
      simpl in Hle. lia.
  - intros Hle. rewrite DetailView_run, Hk. simpl. by rewrite decide_True.
Qed.

Lemma scheduled_question_visibility_witness :
  ∃ k, DetailView 1000 k (create_question "Future question." 30 1000
                            empty_database).1
       = ((create_question "Future question." 30 1000 empty_database).1,
          Raise Http404)
     ∧ DetailView (1000 + 86400 * 30) k
         (create_question "Future question." 30 1000 empty_database).1
       = ((create_question "Future question." 30 1000 empty_database).1,
          Return (render "polls/detail.html"
                    {[ "question" :=
                         CtxQuestion
                           (mkInstance k
                              (mkQuestion "Future question."
                                 (1000 + 86400 * 30))) ]})).
Proof.
  destruct (scheduled_question_visibility "Future question." 30 1000 1000
              empty_database) as (k & _ & Hk & _ & Hhidden & _).
  destruct (scheduled_question_visibility "Future question." 30 1000
              (1000 + 86400 * 30) empty_database)
    as (k' & _ & Hk' & _ & _ & Hshown).
  assert (k' = k) as -> by congruence.
  exists k. split.
  - apply Hhidden. lia.
  - apply Hshown. lia.
Defined.
